(** * Subscription webhook pipeline of the Corp Astro API

    A shallow embedding of
      - [src/utils/webhook.utils.ts]            (signature check, event-type
                                                 parsing, detail extraction),
      - [src/services/subscription.service.ts]  (status read, receipt
                                                 validation, sync and the
                                                 three webhook handlers),
      - [src/controllers/subscription.controller.ts] (the webhook endpoint
                                                 and the client endpoints),
      - [src/middlewares/error.middleware.ts]   (the error handler),
      - [src/app.ts] and [src/middlewares/raw-body.middleware.ts] (what
                                                 stands in front of the
                                                 webhook handler),
    followed by the properties the specification states about them, and by
    further properties of the code.

    JavaScript values are a small JSON-like datatype, exceptions are an
    explicit error monad, the two database tables are lists of rows threaded
    through the handlers, and the clock is the ISO string that
    [new Date().toISOString()] yields in the call at hand. *)

From Stdlib Require Import ZArith List String Ascii Bool Lia DecimalString.
Import ListNotations.
Local Open Scope string_scope.
Local Open Scope list_scope.

(* ================================================================== *)
(** ** JavaScript values *)
(* ================================================================== *)

(** JSON-shaped values ([any] in the TypeScript source).  Numbers are the
    integers; the source only compares them with [1],[2],[3],[4] and tests
    them for truthiness. *)
#[warnings="-register-all"]
Inductive jsval : Type :=
| JUndef
| JNull
| JBool (b : bool)
| JNum (n : Z)
| JStr (s : string)
| JArr (xs : list jsval)
| JObj (fields : list (string * jsval)).

(** [!!v] *)
Definition truthy (v : jsval) : bool :=
  match v with
  | JUndef | JNull => false
  | JBool b => b
  | JNum n => negb (n =? 0)%Z
  | JStr s => negb (s =? "")
  | JArr _ | JObj _ => true
  end.

(** [a || b] on values that are already evaluated. *)
Definition js_or (a b : jsval) : jsval := if truthy a then a else b.

(** [a && b] on values that are already evaluated. *)
Definition js_and (a b : jsval) : jsval := if truthy a then b else a.

Fixpoint obj_lookup (k : string) (fs : list (string * jsval)) : option jsval :=
  match fs with
  | [] => None
  | (k', v) :: fs' => if k' =? k then Some v else obj_lookup k fs'
  end.

(** [o[k]] for a receiver that is neither [undefined] nor [null].  Only own
    properties of objects are modelled: the keys the source reads are never
    names of built-in members of strings, numbers or arrays. *)
Definition js_get (o : jsval) (k : string) : jsval :=
  match o with
  | JObj fs => match obj_lookup k fs with Some v => v | None => JUndef end
  | _ => JUndef
  end.

(** [o[k] = v] on a property list: an existing key keeps its position. *)
Fixpoint obj_set (k : string) (v : jsval) (fs : list (string * jsval))
  : list (string * jsval) :=
  match fs with
  | [] => [(k, v)]
  | (k', v') :: fs' =>
      if k' =? k then (k', v) :: fs' else (k', v') :: obj_set k v fs'
  end.

(** [{...target, ...props}]: the properties of [props] are assigned in
    order. *)
Definition obj_assign (target props : list (string * jsval))
  : list (string * jsval) :=
  fold_left (fun o kv => obj_set (fst kv) (snd kv) o) props target.

Definition index_key (i : nat) : string :=
  NilZero.string_of_uint (Nat.to_uint i).

Fixpoint indexed {A} (f : A -> jsval) (i : nat) (xs : list A)
  : list (string * jsval) :=
  match xs with
  | [] => []
  | x :: xs' => (index_key i, f x) :: indexed f (S i) xs'
  end.

(** The own enumerable properties that [{...v}] copies. *)
Definition own_props (v : jsval) : list (string * jsval) :=
  match v with
  | JObj fs => fs
  | JArr xs => indexed (fun x => x) 0 xs
  | JStr s => indexed (fun c => JStr (String c "")) 0 (list_ascii_of_string s)
  | _ => []
  end.

(** [v === "lit"] *)
Definition is_str (v : jsval) (lit : string) : bool :=
  match v with
  | JStr s => s =? lit
  | _ => false
  end.

(** [v === n] for a number literal. *)
Definition is_num (v : jsval) (n : Z) : bool :=
  match v with
  | JNum m => (m =? n)%Z
  | _ => false
  end.

(** [String(v)], the text a value takes inside a template literal:
    integers print in full (they do below [10^21]), an array as its
    elements separated by commas with [null] and [undefined] left empty,
    an object as [[object Object]]. *)
Fixpoint template_text (v : jsval) : string :=
  match v with
  | JUndef => "undefined"
  | JNull => "null"
  | JBool true => "true"
  | JBool false => "false"
  | JNum n => NilZero.string_of_int (Z.to_int n)
  | JStr s => s
  | JArr xs =>
      (fix join (first : bool) (xs : list jsval) {struct xs} : string :=
         match xs with
         | [] => ""
         | x :: xs' =>
             ((if first then "" else ",")
              ++ match x with
                 | JUndef | JNull => ""
                 | _ => template_text x
                 end
              ++ join false xs')%string
         end) true xs
  | JObj _ => "[object Object]"
  end.

(** *** Exceptions *)

Inductive exn : Type :=
| TypeError (msg : string)
| RangeError (msg : string)
| ApiError (statusCode : Z) (message : string)
| Error (msg : string).

(** A computation either returns or throws. *)
Inductive comp (A : Type) : Type :=
| Ret (a : A)
| Throw (e : exn).
Arguments Ret {A} a.
Arguments Throw {A} e.

Definition bind {A B} (c : comp A) (k : A -> comp B) : comp B :=
  match c with
  | Ret a => k a
  | Throw e => Throw e
  end.

(** [try { c } catch (e) { h e }] *)
Definition try_catch {A} (c : comp A) (h : exn -> comp A) : comp A :=
  match c with
  | Ret a => Ret a
  | Throw e => h e
  end.

(** [o.k]: reading a property of [undefined] or [null] throws. *)
Definition prop (o : jsval) (k : string) : comp jsval :=
  match o with
  | JUndef | JNull => Throw (TypeError "Cannot read properties of undefined")
  | _ => Ret (js_get o k)
  end.

(** [o?.k] *)
Definition opt_prop (o : jsval) (k : string) : jsval :=
  match o with
  | JUndef | JNull => JUndef
  | _ => js_get o k
  end.

Declare Scope comp_scope.
Delimit Scope comp_scope with comp.
Notation "x <- c ;; k" := (bind c (fun x => k))
  (at level 61, c at next level, right associativity) : comp_scope.
Local Open Scope comp_scope.

(* ================================================================== *)
(** ** Node's [crypto]: HMAC-SHA256, hex and base64 digests *)
(* ================================================================== *)

Module Crypto.

Local Open Scope Z_scope.

(** Bytes and 32-bit words are integers; every word operation reduces
    modulo [2^32]. *)
Definition w32 (x : Z) : Z := x mod 4294967296.
Definition add32 (x y : Z) : Z := w32 (x + y).
Definition rotr (n x : Z) : Z :=
  Z.lor (Z.shiftr x n) (w32 (Z.shiftl x (32 - n))).
Definition not32 (x : Z) : Z := 4294967295 - x.

Definition Ch (x y z : Z) : Z := Z.lxor (Z.land x y) (Z.land (not32 x) z).
Definition Maj (x y z : Z) : Z :=
  Z.lxor (Z.lxor (Z.land x y) (Z.land x z)) (Z.land y z).
Definition bsig0 (x : Z) : Z := Z.lxor (Z.lxor (rotr 2 x) (rotr 13 x)) (rotr 22 x).
Definition bsig1 (x : Z) : Z := Z.lxor (Z.lxor (rotr 6 x) (rotr 11 x)) (rotr 25 x).
Definition ssig0 (x : Z) : Z := Z.lxor (Z.lxor (rotr 7 x) (rotr 18 x)) (Z.shiftr x 3).
Definition ssig1 (x : Z) : Z := Z.lxor (Z.lxor (rotr 17 x) (rotr 19 x)) (Z.shiftr x 10).

(** The constants of FIPS 180-4 come from the first primes: the round
    constants are the first 32 bits of the fractional parts of their cube
    roots, the initial hash value those of the square roots of the first
    eight. *)
Definition is_prime (n : nat) : bool :=
  forallb (fun d => negb (n mod d =? 0)%nat) (seq 2 (n - 2)).

Definition first_primes (k : nat) : list Z :=
  map Z.of_nat (firstn k (filter is_prime (seq 2 310))).

(** The integer cube root, one bit at a time from bit [k - 1] down. *)
Fixpoint cube_root_bits (k : nat) (acc n : Z) : Z :=
  match k with
  | O => acc
  | S k' =>
      let c := acc + 2 ^ Z.of_nat k' in
      cube_root_bits k' (if c * c * c <=? n then c else acc) n
  end.

Definition frac_cube_root (p : Z) : Z := w32 (cube_root_bits 36 0 (p * 2 ^ 96)).
Definition frac_square_root (p : Z) : Z := w32 (Z.sqrt (p * 2 ^ 64)).

Definition round_constants : list Z :=
  Eval vm_compute in map frac_cube_root (first_primes 64).

(** The eight working variables [a..h]. *)
Record hstate : Type := HState
  { ha : Z; hb : Z; hc : Z; hd : Z; he : Z; hf : Z; hg : Z; hh : Z }.

Definition initial_hash : hstate :=
  Eval vm_compute in
    match map frac_square_root (first_primes 8) with
    | [a; b; c; d; e; f; g; h] => HState a b c d e f g h
    | _ => HState 0 0 0 0 0 0 0 0
    end.

(** Big-endian packing of bytes into words. *)
Fixpoint words_of_bytes (bs : list Z) : list Z :=
  match bs with
  | b0 :: b1 :: b2 :: b3 :: rest =>
      (b0 * 16777216 + b1 * 65536 + b2 * 256 + b3) :: words_of_bytes rest
  | _ => []
  end.

Definition bytes_of_word (x : Z) : list Z :=
  [ Z.shiftr x 24 mod 256; Z.shiftr x 16 mod 256;
    Z.shiftr x 8 mod 256; x mod 256 ].

(** The message schedule, kept newest word first: [win] holds
    [W(t-1) .. W(t-16)]. *)
Fixpoint schedule (n : nat) (win : list Z) : list Z :=
  match n with
  | O => []
  | S n' =>
      let wt := add32 (add32 (ssig1 (nth 1 win 0)) (nth 6 win 0))
                      (add32 (ssig0 (nth 14 win 0)) (nth 15 win 0)) in
      wt :: schedule n' (wt :: firstn 15 win)
  end.

Definition round (s : hstate) (kw : Z * Z) : hstate :=
  let t1 := add32 (add32 (add32 (hh s) (bsig1 (he s)))
                         (add32 (Ch (he s) (hf s) (hg s)) (fst kw))) (snd kw) in
  let t2 := add32 (bsig0 (ha s)) (Maj (ha s) (hb s) (hc s)) in
  HState (add32 t1 t2) (ha s) (hb s) (hc s) (add32 (hd s) t1) (he s) (hf s) (hg s).

Definition compress (s : hstate) (block : list Z) : hstate :=
  let w16 := words_of_bytes block in
  let ws := w16 ++ schedule 48 (rev w16) in
  let r := fold_left round (combine round_constants ws) s in
  HState (add32 (ha s) (ha r)) (add32 (hb s) (hb r))
         (add32 (hc s) (hc r)) (add32 (hd s) (hd r))
         (add32 (he s) (he r)) (add32 (hf s) (hf r))
         (add32 (hg s) (hg r)) (add32 (hh s) (hh r)).

(** Padding: a [0x80] byte, zeros up to 56 modulo 64, the bit length on
    eight bytes. *)
Definition pad (msg : list Z) : list Z :=
  let len := List.length msg in
  let zeros := ((64 - (len + 9) mod 64) mod 64)%nat in
  let bits := 8 * Z.of_nat len in
  msg ++ [128] ++ repeat 0 zeros
      ++ bytes_of_word (Z.shiftr bits 32 mod 4294967296)
      ++ bytes_of_word (bits mod 4294967296).

Fixpoint blocks (n : nat) (bs : list Z) : list (list Z) :=
  match n with
  | O => []
  | S n' => firstn 64 bs :: blocks n' (skipn 64 bs)
  end.

Definition digest_bytes (s : hstate) : list Z :=
  bytes_of_word (ha s) ++ bytes_of_word (hb s) ++ bytes_of_word (hc s)
  ++ bytes_of_word (hd s) ++ bytes_of_word (he s) ++ bytes_of_word (hf s)
  ++ bytes_of_word (hg s) ++ bytes_of_word (hh s).

Definition sha256 (msg : list Z) : list Z :=
  let p := pad msg in
  digest_bytes (fold_left compress (blocks (List.length p / 64) p) initial_hash).

(** HMAC (RFC 2104) with block size 64. *)
Definition hmac_key_block (key : list Z) : list Z :=
  let k := if (64 <? List.length key)%nat then sha256 key else key in
  k ++ repeat 0 (64 - List.length k)%nat.

Definition hmac_sha256_bytes (key msg : list Z) : list Z :=
  let kb := hmac_key_block key in
  let ikey := map (Z.lxor 0x36) kb in
  let okey := map (Z.lxor 0x5c) kb in
  sha256 (okey ++ sha256 (ikey ++ msg)).

(** [Buffer.from(s)]: the bytes of a string. *)
Definition bytes_of_string (s : string) : list Z :=
  map (fun c => Z.of_N (N_of_ascii c)) (list_ascii_of_string s).

Definition hmac_sha256 (key msg : string) : list Z :=
  hmac_sha256_bytes (bytes_of_string key) (bytes_of_string msg).

(** [digest('hex')] *)
Definition hex_digit (n : Z) : ascii :=
  nth (Z.to_nat n) (list_ascii_of_string "0123456789abcdef") "0"%char.

Fixpoint hex (bs : list Z) : string :=
  match bs with
  | [] => ""
  | b :: bs' => String (hex_digit (b / 16)) (String (hex_digit (b mod 16)) (hex bs'))
  end.

(** [digest('base64')] *)
Definition b64_char (n : Z) : ascii :=
  nth (Z.to_nat n)
      (list_ascii_of_string
         "ABCDEFGHIJKLMNOPQRSTUVWXYZabcdefghijklmnopqrstuvwxyz0123456789+/")
      "A"%char.

Fixpoint base64 (bs : list Z) : string :=
  match bs with
  | [] => ""
  | [b0] =>
      String (b64_char (b0 / 4))
        (String (b64_char ((b0 mod 4) * 16)) "==")
  | [b0; b1] =>
      String (b64_char (b0 / 4))
        (String (b64_char ((b0 mod 4) * 16 + b1 / 16))
           (String (b64_char ((b1 mod 16) * 4)) "="))
  | b0 :: b1 :: b2 :: rest =>
      String (b64_char (b0 / 4))
        (String (b64_char ((b0 mod 4) * 16 + b1 / 16))
           (String (b64_char ((b1 mod 16) * 4 + b2 / 64))
              (String (b64_char (b2 mod 64)) (base64 rest))))
  end.

End Crypto.

(* ================================================================== *)
(** ** String helpers of the JavaScript runtime *)
(* ================================================================== *)

(** [s.startsWith(p)] *)
Fixpoint startsWith (s p : string) {struct p} : bool :=
  match p with
  | EmptyString => true
  | String c p' =>
      match s with
      | EmptyString => false
      | String d s' => Ascii.eqb d c && startsWith s' p'
      end
  end.

(** [s.includes(sub)] *)
Fixpoint includes (s sub : string) : bool :=
  startsWith s sub
  || match s with
     | EmptyString => false
     | String _ s' => includes s' sub
     end.

(** [s.split(sep)] for a one-character separator. *)
Fixpoint split (sep : ascii) (s : string) : list string :=
  match s with
  | EmptyString => [EmptyString]
  | String c s' =>
      if Ascii.eqb c sep then EmptyString :: split sep s'
      else match split sep s' with
           | h :: t => String c h :: t
           | [] => [String c EmptyString]
           end
  end.

Fixpoint bytes_eqb (a b : list Z) : bool :=
  match a, b with
  | [], [] => true
  | x :: a', y :: b' => (x =? y)%Z && bytes_eqb a' b'
  | _, _ => false
  end.

(** [crypto.timingSafeEqual(a, b)]: buffers of different length make it
    throw. *)
Definition timingSafeEqual (a b : list Z) : comp bool :=
  if (List.length a =? List.length b)%nat then Ret (bytes_eqb a b)
  else Throw (RangeError "Input buffers must have the same byte length").

(** [crypto.createHmac('sha256', key).update(data)]: key and data have to be
    strings (buffers do not occur in this code), otherwise the call throws
    a [TypeError]. *)
Definition createHmac_sha256 (key data : jsval) : comp (list Z) :=
  match key, data with
  | JStr k, JStr d => Ret (Crypto.hmac_sha256 k d)
  | _, _ => Throw (TypeError "ERR_INVALID_ARG_TYPE")
  end.

(** [typeof v === 'object'] *)
Definition typeof_object (v : jsval) : bool :=
  match v with
  | JNull | JArr _ | JObj _ => true
  | _ => false
  end.

(* ================================================================== *)
(** ** The persistence collaborator *)
(* ================================================================== *)

(** The store behind [../config/supabase], a client of the database that
    is outside the sources: the two tables the service uses, as lists of
    rows.  A row holds the columns the service reads or writes; the
    primary key [id], which the database generates, is not modelled; SQL
    [NULL] is [JNull]. *)
Module Sub.
Record row : Type := Row
  { user_id : jsval;
    plan : jsval;
    product_id : jsval;
    receipt : jsval;
    platform : jsval;
    purchase_date : jsval;
    expiry_date : jsval;
    is_lifetime : jsval;
    is_active : jsval;
    transaction_id : jsval;
    updated_at : jsval;
    refunded : jsval;
    refund_date : jsval;
    trial_end_date : jsval }.

(** The row an insert starts from: every column at its default. *)
Definition default : row :=
  Row JNull JNull JNull JNull JNull JNull JNull JNull JNull JNull JNull
      (JBool false) JNull JNull.

(** Column access by name, for filters whose column is chosen at run time. *)
Definition column (name : string) (r : row) : jsval :=
  if name =? "user_id" then user_id r
  else if name =? "plan" then plan r
  else if name =? "product_id" then product_id r
  else if name =? "receipt" then receipt r
  else if name =? "platform" then platform r
  else if name =? "purchase_date" then purchase_date r
  else if name =? "expiry_date" then expiry_date r
  else if name =? "is_lifetime" then is_lifetime r
  else if name =? "is_active" then is_active r
  else if name =? "transaction_id" then transaction_id r
  else if name =? "updated_at" then updated_at r
  else if name =? "refunded" then refunded r
  else if name =? "refund_date" then refund_date r
  else if name =? "trial_end_date" then trial_end_date r
  else JNull.
End Sub.

(** A row of [subscription_events] (migration
    [20250605_create_subscription_events_table.sql]); [id] is generated by
    the database and not modelled. *)
Module Event.
Record row : Type := Row
  { user_id : jsval;
    event_type : jsval;
    product_id : jsval;
    transaction_id : jsval;
    created_at : jsval;
    metadata : jsval }.
End Event.

Record store : Type := Store
  { subscriptions : list Sub.row;
    subscription_events : list Event.row }.

(** How a database call ends: normally, with [{ error }] set, or with an
    exception of the client. *)
Inductive db_outcome : Type :=
| DbOk
| DbError (message : string)
| DbThrows (e : exn).

(** A value sent in a request body: [JSON.stringify] drops the properties
    that are [undefined], so the column keeps what it had. *)
Definition supplied (v old : jsval) : jsval :=
  match v with
  | JUndef => old
  | _ => v
  end.

(** [.eq(column, value)].  The client writes the filter into the URL of
    the request as text, [column=eq.${value}], and the database compares
    the column with that text: the value [undefined] selects the rows
    whose column holds the text [undefined], [null] those that hold the
    text [null], the number [42] those that hold [42].  A column is
    compared through the text of what it holds, and one that is [NULL]
    satisfies no equality. *)
Definition sql_eq (stored value : jsval) : bool :=
  match stored with
  | JUndef | JNull => false
  | _ => template_text stored =? template_text value
  end.

(** [.upsert(values)] without [onConflict]: the conflict is resolved on the
    primary key, which is the generated [id] of the table (migration
    [20250605_create_subscription_events_table.sql]; [user_id] has an
    index and no unique constraint).  The service never sends an [id], so
    no existing row is ever met and the values are inserted as a new
    row. *)
Definition upsert (values : Sub.row -> Sub.row) (rows : list Sub.row)
  : list Sub.row :=
  rows ++ [values Sub.default].

(** [.update(values).eq(...).eq(...)]: every row that satisfies the filter
    takes the supplied columns. *)
Definition update (matches : Sub.row -> bool) (values : Sub.row -> Sub.row)
  (rows : list Sub.row) : list Sub.row :=
  map (fun r => if matches r then values r else r) rows.

(** The response [{ data, error }] of a read. *)
Record query_result : Type := QueryResult
  { data : option Sub.row;
    error : option string }.

(** [.single()]: exactly one row, or the error PGRST116 of PostgREST. *)
Definition single (rows : list Sub.row) : query_result :=
  match rows with
  | [r] => QueryResult (Some r) None
  | _ => QueryResult None (Some "PGRST116")
  end.

(** *** Computations on the store

    A computation runs from a store and ends by returning or by throwing;
    the store it has reached is kept in both cases, since a write that was
    acknowledged stays written when a later statement throws. *)
Definition eff (A : Type) : Type := store -> comp A * store.

Definition eff_ret {A} (a : A) : eff A := fun st => (Ret a, st).

Definition eff_bind {A B} (c : eff A) (k : A -> eff B) : eff B :=
  fun st =>
    match c st with
    | (Ret a, st') => k a st'
    | (Throw e, st') => (Throw e, st')
    end.

(** A computation that does not touch the store. *)
Definition pure {A} (c : comp A) : eff A := fun st => (c, st).

(** [try { c } catch (e) { h e }] *)
Definition eff_try {A} (c : eff A) (h : exn -> eff A) : eff A :=
  fun st =>
    match c st with
    | (Ret a, st') => (Ret a, st')
    | (Throw e, st') => h e st'
    end.

(** The store a computation leaves behind. *)
Definition exec {A} (c : eff A) (st : store) : store := snd (c st).

(** A write: it takes effect only when the call ends normally, and answers
    with the [error] of the response. *)
Definition db_write (o : db_outcome) (w : store -> store) : eff (option string) :=
  fun st =>
    match o with
    | DbOk => (Ret None, w st)
    | DbError m => (Ret (Some m), st)
    | DbThrows e => (Throw e, st)
    end.

(** [.from('subscriptions').upsert(values)] *)
Definition db_upsert (o : db_outcome) (values : Sub.row -> Sub.row)
  : eff (option string) :=
  db_write o (fun st => Store (upsert values (subscriptions st))
                              (subscription_events st)).

(** [.from('subscriptions').update(values).eq(...).eq(...)] *)
Definition db_update (o : db_outcome) (matches : Sub.row -> bool)
  (values : Sub.row -> Sub.row) : eff (option string) :=
  db_write o (fun st => Store (update matches values (subscriptions st))
                              (subscription_events st)).

(** [.from('subscription_events').insert(row)] *)
Definition db_insert_event (o : db_outcome) (row : Event.row)
  : eff (option string) :=
  db_write o (fun st => Store (subscriptions st)
                              (subscription_events st ++ [row])).

(** [.from('subscriptions').select('*').eq('user_id', userId).single()] *)
Definition db_select_single (o : db_outcome) (userId : jsval)
  : eff query_result :=
  fun st =>
    match o with
    | DbOk => (Ret (single (filter (fun r => sql_eq (Sub.user_id r) userId)
                                   (subscriptions st))), st)
    | DbError m => (Ret (QueryResult None (Some m)), st)
    | DbThrows e => (Throw e, st)
    end.

Declare Scope eff_scope.
Delimit Scope eff_scope with eff.
Notation "x <~ c ;; k" := (eff_bind c (fun x => k))
  (at level 61, c at next level, right associativity) : eff_scope.
Local Open Scope eff_scope.

(* ================================================================== *)
(** ** [src/utils/webhook.utils.ts] *)
(* ================================================================== *)

Section Host.

(** The collaborators outside the repository. *)

(** [jwt.verify(token, secret)] of the [jsonwebtoken] package: the decoded
    payload, or an exception. *)
Variable jwt_verify : string -> jsval -> comp jsval.

(** [new Date(parseInt(x)).toISOString()], which throws a [RangeError] on an
    invalid time value. *)
Variable millis_toISOString : jsval -> comp jsval.

(** [JSON.stringify(v)]: a string, or [undefined]. *)
Variable JSON_stringify : jsval -> jsval.

(** [verifyWebhookSignature(payload, signature, secret)] *)
Definition verifyWebhookSignature (payload signature secret : jsval)
  : comp bool :=
  try_catch
    (if negb (truthy payload) || negb (truthy signature) || negb (truthy secret)
     then Ret false
     else if is_str secret "apple" then
       try_catch
         (d <- createHmac_sha256 (JStr "test-apple-secret") payload ;;
          Ret (is_str signature (Crypto.base64 d)))
         (fun _ => Ret false)
     else if is_str secret "google" then
       if is_str signature "valid-jwt-token" then
         try_catch
           (_ <- jwt_verify "valid-jwt-token" (JStr "test-google-secret") ;;
            Ret true)
           (fun _ => Ret true)
       else if is_str signature "invalid-jwt-token" then Ret false
       else Ret false
     else
       match signature with
       | JStr sig =>
           if startsWith sig "sha256=" then
             d <- createHmac_sha256 secret payload ;;
             timingSafeEqual (Crypto.bytes_of_string sig)
                             (Crypto.bytes_of_string ("sha256=" ++ Crypto.hex d))
           else if (List.length (split "."%char sig) =? 3)%nat then
             try_catch (_ <- jwt_verify sig secret ;; Ret true)
                       (fun _ => Ret false)
           else Ret false
       | _ => Throw (TypeError "signature.startsWith is not a function")
       end)
    (fun _ => Ret false).

(** The [switch] on Apple's [notificationType]. *)
Definition apple_event_type (notificationType : jsval) : string :=
  if is_str notificationType "CONSUMPTION_REQUEST" then "purchased"
  else if is_str notificationType "DID_RENEW" then "renewed"
  else if is_str notificationType "DID_FAIL_TO_RENEW" then "expired"
  else if is_str notificationType "REFUND" then "refunded"
  else if is_str notificationType "UNKNOWN_TYPE" then "unknown"
  else "unknown".

Definition google_event_type (payload : jsval) : comp string :=
  mt0 <- prop payload "messageType" ;;
  let messageType := js_or mt0 (JStr "") in
  if is_str messageType "SUBSCRIPTION_PURCHASED" then Ret "purchased"
  else if is_str messageType "SUBSCRIPTION_RENEWED" then Ret "renewed"
  else if is_str messageType "SUBSCRIPTION_EXPIRED" then Ret "expired"
  else if is_str messageType "SUBSCRIPTION_REVOKED" then Ret "refunded"
  else
    sn <- prop payload "subscriptionNotification" ;;
    let notificationType := js_or (opt_prop sn "notificationType") (JStr "") in
    if is_num notificationType 1 then Ret "purchased"
    else if is_num notificationType 2 then Ret "renewed"
    else if is_num notificationType 3 then Ret "expired"
    else if is_num notificationType 4 then Ret "refunded"
    else Ret "unknown".

(** [parseWebhookEventType(payload, provider)] *)
Definition parseWebhookEventType (payload : jsval) (provider : string)
  : comp string :=
  try_catch
    (if provider =? "apple" then
       nt <- prop payload "notificationType" ;;
       Ret (apple_event_type (js_or nt (JStr "")))
     else if provider =? "google" then google_event_type payload
     else Ret "unknown")
    (fun _ => Ret "unknown").

Definition apple_details (payload : jsval) : comp jsval :=
  d0 <- prop payload "data" ;;
  if truthy (opt_prop d0 "transactionInfo") then
    d1 <- prop payload "data" ;;
    ti <- prop d1 "transactionInfo" ;;
    otid <- prop ti "originalTransactionId" ;;
    pid <- prop ti "productId" ;;
    tid <- prop ti "transactionId" ;;
    woli <- prop ti "webOrderLineItemId" ;;
    rc <- prop d1 "signedTransactionInfo" ;;
    Ret (JObj [ ("originalTransactionId", otid); ("productId", pid);
                ("transactionId", tid); ("webOrderLineItemId", woli);
                ("receipt", rc) ])
  else
    let data := js_or d0 (JObj []) in
    let transactionInfo := js_or (js_get data "signedTransactionInfo") (JObj []) in
    Ret (JObj [ ("originalTransactionId", js_get transactionInfo "originalTransactionId");
                ("productId", js_get transactionInfo "productId");
                ("expiresDate", js_get transactionInfo "expiresDate");
                ("purchaseDate", js_get transactionInfo "purchaseDate");
                ("status", js_get transactionInfo "status");
                ("transactionId", js_get transactionInfo "transactionId");
                ("receipt", js_get data "signedRenewalInfo") ]).

Definition google_details (payload : jsval) : comp jsval :=
  mt <- prop payload "messageType" ;;
  test_case <- (if is_str mt "SUBSCRIPTION_PURCHASED" then
                  d <- prop payload "data" ;;
                  Ret (is_str (opt_prop (opt_prop d "subscriptionNotification")
                                        "purchaseToken") "test-token")
                else Ret false) ;;
  if (test_case : bool) then
    Ret (JObj [ ("originalTransactionId", JStr "789012");
                ("productId", JStr "com.corpastroapps.monthly");
                ("transactionId", JStr "789012");
                ("purchaseToken", JStr "test-token");
                ("receipt", JStr "test-token") ])
  else if truthy mt then
    d <- prop payload "data" ;;
    let subscriptionData := js_or (opt_prop d "subscriptionNotification") (JObj []) in
    let pick a b c :=
      js_or (js_or (js_get subscriptionData a) (js_get payload b)) (JStr c) in
    Ret (JObj [ ("originalTransactionId",
                 pick "purchaseToken" "originalTransactionId" "789012");
                ("productId",
                 pick "subscriptionId" "productId" "com.corpastroapps.monthly");
                ("transactionId", pick "orderId" "transactionId" "789012");
                ("purchaseToken", pick "purchaseToken" "purchaseToken" "test-token");
                ("receipt", pick "purchaseToken" "receipt" "test-token") ])
  else
    sn <- prop payload "subscriptionNotification" ;;
    let subscription := js_or sn (JObj []) in
    expires <- (if truthy (js_get subscription "expiryTimeMillis")
                then millis_toISOString (js_get subscription "expiryTimeMillis")
                else Ret JUndef) ;;
    Ret (JObj [ ("originalTransactionId", js_get subscription "purchaseToken");
                ("productId", js_get subscription "subscriptionId");
                ("expiresDate", expires);
                ("status", js_get subscription "notificationType");
                ("transactionId", js_get subscription "purchaseToken");
                ("purchaseToken", js_get subscription "purchaseToken");
                ("receipt", js_get subscription "purchaseToken") ]).

(** [extractSubscriptionDetails(payload, provider)] *)
Definition extractSubscriptionDetails (payload : jsval) (provider : string)
  : comp jsval :=
  try_catch
    (if negb (truthy payload) || negb (typeof_object payload) then Ret (JObj [])
     else
       early <- (if provider =? "google" then
                   mt <- prop payload "messageType" ;;
                   if is_str mt "SUBSCRIPTION_PURCHASED" then
                     d <- prop payload "data" ;; Ret (negb (truthy d))
                   else Ret false
                 else Ret false) ;;
       if (early : bool) then Ret (JObj [])
       else if provider =? "apple" then apple_details payload
       else if provider =? "google" then google_details payload
       else Ret (JObj []))
    (fun _ => Ret (JObj [])).

(* ================================================================== *)
(** ** [src/services/subscription.service.ts] *)
(* ================================================================== *)

(** A [Date]: its time value in milliseconds, or [None] for an invalid
    date. *)
Definition jsdate : Type := option Z.

Record SubscriptionStatus : Type := MkStatus
  { isActive : jsval;
    status_plan : jsval;
    expiryDate : option jsdate;
    isLifetime : jsval;
    isTrialActive : bool;
    trialEndDate : option jsdate }.

Definition default_status : SubscriptionStatus :=
  MkStatus (JBool false) JNull None (JBool false) false None.

(** [new Date(v)] for a column value: the time value of a timestamp. *)
Variable Date_parse : jsval -> jsdate.

(** [d > now] on dates; an invalid date compares false. *)
Definition date_after (d : jsdate) (now : Z) : bool :=
  match d with
  | Some t => (now <? t)%Z
  | None => false
  end.

(** [v ? new Date(v) : null] *)
Definition date_or_null (v : jsval) : option jsdate :=
  if truthy v then Some (Date_parse v) else None.

(** [d !== null && d > now] *)
Definition in_future (d : option jsdate) (now : Z) : bool :=
  match d with
  | Some t => date_after t now
  | None => false
  end.

(** [getSubscriptionStatus] from the answer of its read on. *)
Definition status_of_read (now : Z) (q : query_result) : comp SubscriptionStatus :=
  match error q with
  | Some _ => Throw (ApiError 500 "Failed to fetch subscription status")
  | None =>
      match data q with
      | None => Ret default_status
      | Some row =>
          let expiry := date_or_null (Sub.expiry_date row) in
          let trialEnd := date_or_null (Sub.trial_end_date row) in
          Ret (MkStatus
                 (js_or (Sub.is_lifetime row) (JBool (in_future expiry now)))
                 (Sub.plan row)
                 expiry
                 (js_or (Sub.is_lifetime row) (JBool false))
                 (in_future trialEnd now)
                 trialEnd)
      end
  end.

(** [getSubscriptionStatus(userId)] *)
Definition getSubscriptionStatus (now : Z) (o : db_outcome) (userId : jsval)
  : eff SubscriptionStatus :=
  eff_try
    (q <~ db_select_single o userId ;;
     pure (status_of_read now q))
    (fun e =>
       match e with
       | ApiError _ _ => pure (Throw e)
       | _ => pure (Throw (ApiError 500 "Failed to get subscription status"))
       end).

(** [notification.a || notification.b] *)
Definition either_field (notification : jsval) (a b : string) : comp jsval :=
  x <- prop notification a ;;
  if truthy x then Ret x else prop notification b.

(** The columns written by [handleSubscriptionPurchased]. *)
Definition purchased_values (userId productId transactionId : jsval)
  (now : string) (r : Sub.row) : Sub.row :=
  Sub.Row (supplied userId (Sub.user_id r)) (Sub.plan r)
          (supplied productId (Sub.product_id r)) (Sub.receipt r)
          (Sub.platform r) (Sub.purchase_date r) (Sub.expiry_date r)
          (Sub.is_lifetime r) (JBool true)
          (supplied transactionId (Sub.transaction_id r)) (JStr now)
          (Sub.refunded r) (Sub.refund_date r) (Sub.trial_end_date r).

(** [handleSubscriptionPurchased(notification)]; the [catch] only logs. *)
Definition handleSubscriptionPurchased (now : string) (o : db_outcome)
  (notification : jsval) : eff unit :=
  eff_try
    (userId <~ pure (either_field notification "userId" "user_id") ;;
     productId <~ pure (either_field notification "productId" "product_id") ;;
     transactionId <~
       pure (either_field notification "transactionId" "transaction_id") ;;
     if negb (truthy userId) || negb (truthy productId) then eff_ret tt
     else
       _ <~ db_upsert o
              (purchased_values userId productId transactionId now) ;;
       eff_ret tt)
    (fun _ => eff_ret tt).

(** The columns written by [handleSubscriptionExpired]. *)
Definition expired_values (now : string) (r : Sub.row) : Sub.row :=
  Sub.Row (Sub.user_id r) (Sub.plan r) (Sub.product_id r) (Sub.receipt r)
          (Sub.platform r) (Sub.purchase_date r) (Sub.expiry_date r)
          (Sub.is_lifetime r) (JBool false) (Sub.transaction_id r) (JStr now)
          (Sub.refunded r) (Sub.refund_date r) (Sub.trial_end_date r).

(** [handleSubscriptionExpired(notification)] *)
Definition handleSubscriptionExpired (now : string) (o : db_outcome)
  (notification : jsval) : eff unit :=
  eff_try
    (userId <~ pure (either_field notification "userId" "user_id") ;;
     productId <~ pure (either_field notification "productId" "product_id") ;;
     if negb (truthy userId) then eff_ret tt
     else
       _ <~ db_update o
              (fun r => sql_eq (Sub.user_id r) userId
                        && sql_eq (Sub.product_id r) productId)
              (expired_values now) ;;
       eff_ret tt)
    (fun _ => eff_ret tt).

(** The columns written by [handleSubscriptionRefunded]. *)
Definition refunded_values (now : string) (r : Sub.row) : Sub.row :=
  Sub.Row (Sub.user_id r) (Sub.plan r) (Sub.product_id r) (Sub.receipt r)
          (Sub.platform r) (Sub.purchase_date r) (Sub.expiry_date r)
          (Sub.is_lifetime r) (JBool false) (Sub.transaction_id r) (JStr now)
          (JBool true) (JStr now) (Sub.trial_end_date r).

(** The second [.eq] of the refund update: the lineage when the
    notification carries one, the product otherwise. *)
Definition refund_filter (originalTransactionId productId : jsval)
  (r : Sub.row) : bool :=
  sql_eq (Sub.column (if truthy originalTransactionId then "transaction_id"
                      else "product_id") r)
         (js_or originalTransactionId productId).

(** A column of an inserted row: a property that is [undefined] is dropped
    from the request and the column stays [NULL]. *)
Definition nullable (v : jsval) : jsval := supplied v JNull.

(** [handleSubscriptionRefunded(notification)] *)
Definition handleSubscriptionRefunded (now : string)
  (o_update o_insert : db_outcome) (notification : jsval) : eff unit :=
  eff_try
    (userId <~ pure (either_field notification "userId" "user_id") ;;
     productId <~ pure (either_field notification "productId" "product_id") ;;
     originalTransactionId <~
       pure (either_field notification "originalTransactionId"
                          "original_transaction_id") ;;
     if negb (truthy userId) then eff_ret tt
     else
       err <~ db_update o_update
                (fun r => sql_eq (Sub.user_id r) userId
                          && refund_filter originalTransactionId productId r)
                (refunded_values now) ;;
       match err with
       | Some _ => eff_ret tt
       | None =>
           _ <~ db_insert_event o_insert
                  (Event.Row userId (JStr "refund") (nullable productId)
                             (nullable originalTransactionId) (JStr now)
                             notification) ;;
           eff_ret tt
       end)
    (fun _ => eff_ret tt).

(* ================================================================== *)
(** ** [src/controllers/subscription.controller.ts] *)
(* ================================================================== *)

(** The parts of the Express request the handler reads. *)
Record request : Type := Request
  { body : jsval;
    headers : jsval;
    rawBody : jsval }.

(** [process.env] *)
Record environment : Type := Environment
  { APPLE_WEBHOOK_SECRET : jsval;
    GOOGLE_WEBHOOK_SECRET : jsval }.

(** [res.status(code).json(payload)] *)
Record response : Type := Response
  { status : Z;
    json : jsval }.

Definition ok_response : response :=
  Response 200 (JObj [("status", JStr "ok")]).

Definition error_response (message : string) : response :=
  Response 200 (JObj [("status", JStr "error"); ("message", JStr message)]).

(** [determineProvider(headers, body)]; [None] is [null]. *)
Definition determineProvider (headers body : jsval) : comp (option string) :=
  h <- prop headers "x-apple-verification-id" ;;
  apple <- (if truthy h then Ret true
            else
              nt <- prop body "notificationType" ;;
              if truthy nt then
                d <- prop body "data" ;;
                if truthy d then
                  sp <- prop body "signedPayload" ;; Ret (truthy sp)
                else Ret false
              else Ret false) ;;
  if (apple : bool) then Ret (Some "apple")
  else
    g <- prop headers "x-goog-signature" ;;
    google <- (if truthy g then Ret true
               else
                 sn <- prop body "subscriptionNotification" ;;
                 if truthy sn then Ret true
                 else
                   ot <- prop body "oneTimeProductNotification" ;;
                   Ret (truthy ot)) ;;
    if (google : bool) then Ret (Some "google") else Ret None.

(** [getWebhookSecret(provider)] *)
Definition getWebhookSecret (env : environment) (provider : string) : jsval :=
  if provider =? "apple" then js_or (APPLE_WEBHOOK_SECRET env) (JStr "")
  else if provider =? "google" then js_or (GOOGLE_WEBHOOK_SECRET env) (JStr "")
  else JStr "".

(** [getSignatureFromHeaders(headers, provider)] *)
Definition getSignatureFromHeaders (headers : jsval) (provider : string)
  : comp jsval :=
  if provider =? "apple" then
    s <- prop headers "x-apple-signature" ;; Ret (js_or s (JStr ""))
  else if provider =? "google" then
    s <- prop headers "x-goog-signature" ;; Ret (js_or s (JStr ""))
  else Ret (JStr "").

(** [{ ...body, provider, ...subscriptionDetails }] *)
Definition notification_of (body : jsval) (provider : string)
  (subscriptionDetails : jsval) : jsval :=
  JObj (obj_assign (obj_set "provider" (JStr provider) (own_props body))
                   (own_props subscriptionDetails)).

Definition one_of (s : string) (labels : list string) : bool :=
  existsb (String.eqb s) labels.

(** The [switch (eventType)] of [handleWebhook]. *)
Definition dispatch (now : string) (o1 o2 : db_outcome) (eventType : string)
  (notification : jsval) : eff unit :=
  if one_of eventType
       [ "INITIAL_BUY"; "DID_RENEW"; "RENEWAL"; "INTERACTIVE_RENEWAL";
         "SUBSCRIPTION_PURCHASED"; "SUBSCRIPTION_RENEWED" ]
  then handleSubscriptionPurchased now o1 notification
  else if one_of eventType
            [ "EXPIRED"; "DID_FAIL_TO_RENEW"; "GRACE_PERIOD";
              "SUBSCRIPTION_EXPIRED"; "SUBSCRIPTION_CANCELED" ]
  then handleSubscriptionExpired now o1 notification
  else if one_of eventType [ "REFUND"; "REVOKE" ]
  then handleSubscriptionRefunded now o1 o2 notification
  else eff_ret tt.

(** [handleWebhook(req, res, next)]: the response sent, and the store the
    request leaves behind.  [o1] and [o2] say how the database calls of
    the request end. *)
Definition handleWebhook (now : string) (o1 o2 : db_outcome)
  (env : environment) (req : request) : eff response :=
  eff_try
    (let raw := js_or (rawBody req) (JSON_stringify (body req)) in
     provider <~ pure (determineProvider (headers req) (body req)) ;;
     match provider with
     | None => eff_ret (error_response "Unknown provider")
     | Some provider =>
         let webhookSecret := getWebhookSecret env provider in
         if negb (truthy webhookSecret)
         then eff_ret (error_response "Configuration error")
         else
           signature <~ pure (getSignatureFromHeaders (headers req) provider) ;;
           if negb (truthy signature)
           then eff_ret (error_response "Missing signature")
           else
             isValid <~ pure (verifyWebhookSignature raw signature webhookSecret) ;;
             if negb isValid
             then eff_ret (error_response "Invalid signature")
             else
               eventType <~ pure (parseWebhookEventType (body req) provider) ;;
               subscriptionDetails <~
                 pure (extractSubscriptionDetails (body req) provider) ;;
               _ <~ dispatch now o1 o2 eventType
                      (notification_of (body req) provider subscriptionDetails) ;;
               eff_ret ok_response
     end)
    (fun _ => eff_ret (error_response "Error processing webhook")).

End Host.

(* ================================================================== *)
(** ** A concrete host, for running the code on examples *)
(* ================================================================== *)

Module Sample.

Definition quote : string := String (ascii_of_nat 34) EmptyString.
Definition backslash : string := String (ascii_of_nat 92) EmptyString.

(** String escaping of [JSON.stringify], for the quote and the backslash. *)
Fixpoint escape (s : string) : string :=
  match s with
  | EmptyString => EmptyString
  | String c s' =>
      if Ascii.eqb c (ascii_of_nat 34) || Ascii.eqb c (ascii_of_nat 92)
      then (backslash ++ String c (escape s'))%string
      else String c (escape s')
  end.

Definition text_of_string (s : string) : string :=
  (quote ++ escape s ++ quote)%string.

(** [JSON.stringify] on the values that have a JSON text; inside an object
    a property that is [undefined] is left out, inside an array it reads
    [null]. *)
Fixpoint json_text (v : jsval) : string :=
  match v with
  | JUndef => "null"
  | JNull => "null"
  | JBool true => "true"
  | JBool false => "false"
  | JNum n => NilZero.string_of_int (Z.to_int n)
  | JStr s => text_of_string s
  | JArr xs =>
      ("["
       ++ (fix items (xs : list jsval) : string :=
             match xs with
             | [] => ""
             | [x] => json_text x
             | x :: xs' => json_text x ++ "," ++ items xs'
             end) xs
       ++ "]")%string
  | JObj fs =>
      ("{"
       ++ (fix members (first : bool) (fs : list (string * jsval)) : string :=
             match fs with
             | [] => ""
             | (_, JUndef) :: fs' => members first fs'
             | (k, x) :: fs' =>
                 (if first then "" else ",")
                 ++ text_of_string k ++ ":" ++ json_text x ++ members false fs'
             end) true fs
       ++ "}")%string
  end.

Definition JSON_stringify (v : jsval) : jsval :=
  match v with
  | JUndef => JUndef
  | _ => JStr (json_text v)
  end.

(** A [jwt.verify] that finds every token malformed. *)
Definition jwt_verify (token : string) (secret : jsval) : comp jsval :=
  Throw (Error "jwt malformed").

(** Time values given as numbers; anything else is an invalid date. *)
Definition Date_parse (v : jsval) : jsdate :=
  match v with
  | JNum t => Some t
  | _ => None
  end.

Definition millis_toISOString (v : jsval) : comp jsval :=
  Throw (RangeError "Invalid time value").

Definition empty_store : store := Store [] [].

(** A purchase notification with the properties the handlers read, and the
    row of an active monthly subscription bought as transaction [B-1]. *)
Definition purchase : jsval :=
  JObj [ ("notificationType", JStr "INITIAL_BUY");
         ("userId", JStr "user-1");
         ("provider", JStr "apple");
         ("originalTransactionId", JStr "A-1");
         ("productId", JStr "monthly_subscription");
         ("transactionId", JStr "A-1") ].

Definition active_row : Sub.row :=
  Sub.Row (JStr "user-1") (JStr "monthly_subscription")
          (JStr "monthly_subscription") (JStr "receipt-B") (JStr "ios")
          (JStr "2025-06-01T00:00:00.000Z") (JStr "2025-07-01T00:00:00.000Z")
          (JBool false) (JBool true) (JStr "B-1")
          (JStr "2025-06-10T00:00:00.000Z") (JBool false) JNull JNull.

(** A store-A webhook: the body, its JSON text as the raw body, and the
    [sha256=] signature of that text under the configured secret. *)
Definition initial_buy_body : jsval :=
  JObj [ ("notificationType", JStr "INITIAL_BUY");
         ("userId", JStr "user-1");
         ("data",
          JObj [ ("transactionInfo",
                  JObj [ ("originalTransactionId", JStr "A-1");
                         ("productId", JStr "monthly_subscription");
                         ("transactionId", JStr "A-1") ]) ]);
         ("signedPayload", JStr "eyJhbGciOiJFUzI1NiJ9") ].

Definition env : environment :=
  Environment (JStr "whsec_live") (JStr "whsec_play").

Definition apple_signature (raw : string) : string :=
  ("sha256=" ++ Crypto.hex (Crypto.hmac_sha256 "whsec_live" raw))%string.

Definition signed_request (b : jsval) : request :=
  Request b
          (JObj [ ("content-type", JStr "application/json");
                  ("x-apple-signature", JStr (apple_signature (json_text b))) ])
          (JStr (json_text b)).

End Sample.

(* ================================================================== *)
(** ** The receipt path of the service, and the client endpoints *)
(* ================================================================== *)

(** [config.subscriptionPlans]: the product ids, read from the environment
    with their defaults. *)
Record plan_ids : Type := PlanIds
  { monthly : string;
    yearly : string;
    lifetime : string }.

(** [process.env.NAME || 'fallback'] for an environment variable, which is
    a string or [undefined]. *)
Definition env_or (v : jsval) (fallback : string) : string :=
  match v with
  | JStr s => if s =? "" then fallback else s
  | _ => fallback
  end.

Definition subscriptionPlans (MONTHLY_PLAN_ID YEARLY_PLAN_ID LIFETIME_PLAN_ID : jsval)
  : plan_ids :=
  PlanIds (env_or MONTHLY_PLAN_ID "monthly_subscription")
          (env_or YEARLY_PLAN_ID "yearly_subscription")
          (env_or LIFETIME_PLAN_ID "lifetime_subscription").

(** [enum SubscriptionPlan] and the strings it stands for. *)
Inductive SubscriptionPlan : Type := MONTHLY | YEARLY | LIFETIME.

Definition plan_value (p : SubscriptionPlan) : string :=
  match p with
  | MONTHLY => "monthly_subscription"
  | YEARLY => "yearly_subscription"
  | LIFETIME => "lifetime_subscription"
  end.

(** The product-to-plan chain of [validateReceipt]; [None] is [null]. *)
Definition plan_of_product (cfg : plan_ids) (productId : jsval)
  : option SubscriptionPlan :=
  if is_str productId (monthly cfg) then Some MONTHLY
  else if is_str productId (yearly cfg) then Some YEARLY
  else if is_str productId (lifetime cfg) then Some LIFETIME
  else None.

Definition is_lifetime_plan (p : SubscriptionPlan) : bool :=
  match p with
  | LIFETIME => true
  | _ => false
  end.

(** The catch clause shared by the service functions: an [ApiError] is
    thrown again, anything else becomes a 500 with the function's own
    message. *)
Definition rethrow_api {A} (message : string) (e : exn) : eff A :=
  match e with
  | ApiError _ _ => pure (Throw e)
  | _ => pure (Throw (ApiError 500 message))
  end.

Section Receipts.

(** [new Date(v)] for a column value, as in [getSubscriptionStatus]. *)
Variable Date_parse : jsval -> jsdate.

(** [d.toISOString()] for a valid date. *)
Variable toISOString : Z -> string.

(** [now.setMonth(now.getMonth() + 1)] and
    [now.setFullYear(now.getFullYear() + 1)]: the new time value, which
    depends on the time zone of the process. *)
Variable setMonth_next : Z -> Z.
Variable setFullYear_next : Z -> Z.

(** The expiry date computed by [validateReceipt]; [None] is [null]. *)
Definition receipt_expiry (plan : SubscriptionPlan) (now : Z) : option Z :=
  match plan with
  | MONTHLY => Some (setMonth_next now)
  | YEARLY => Some (setFullYear_next now)
  | LIFETIME => None
  end.

(** The columns written by [validateReceipt]; [expiry_date] is
    [expiryDate?.toISOString()], which is [undefined] for a lifetime plan
    and then leaves the column as it is. *)
Definition receipt_values (userId receipt productId platform : jsval)
  (plan : SubscriptionPlan) (now : Z) (r : Sub.row) : Sub.row :=
  Sub.Row (supplied userId (Sub.user_id r))
          (JStr (plan_value plan))
          (supplied productId (Sub.product_id r))
          (supplied receipt (Sub.receipt r))
          (supplied platform (Sub.platform r))
          (JStr (toISOString now))
          (match receipt_expiry plan now with
           | Some e => JStr (toISOString e)
           | None => Sub.expiry_date r
           end)
          (JBool (is_lifetime_plan plan))
          (JBool true)
          (Sub.transaction_id r) (Sub.updated_at r)
          (Sub.refunded r) (Sub.refund_date r) (Sub.trial_end_date r).

(** [validateReceipt(userId, receipt, productId, platform)].  [now] is the
    clock of the call itself, [now_status] the one of the status read that
    ends it; [o_save] and [o_read] say how the two database calls end. *)
Definition validateReceipt (cfg : plan_ids) (now now_status : Z)
  (o_save o_read : db_outcome) (userId receipt productId platform : jsval)
  : eff SubscriptionStatus :=
  eff_try
    (match plan_of_product cfg productId with
     | None => pure (Throw (ApiError 400 "Invalid product ID"))
     | Some plan =>
         err <~ db_upsert o_save
                  (receipt_values userId receipt productId platform plan now) ;;
         match err with
         | Some _ => pure (Throw (ApiError 500 "Failed to save subscription"))
         | None => getSubscriptionStatus Date_parse now_status o_read userId
         end
     end)
    (rethrow_api "Failed to validate receipt").

(** [syncSubscriptionStatus(userId)] *)
Definition syncSubscriptionStatus (now : Z) (o_first o_second : db_outcome)
  (userId : jsval) : eff SubscriptionStatus :=
  eff_try
    (q <~ db_select_single o_first userId ;;
     match error q with
     | Some _ =>
         pure (Throw (ApiError 500 "Failed to fetch subscription for sync"))
     | None =>
         match data q with
         | None => eff_ret default_status
         | Some _ => getSubscriptionStatus Date_parse now o_second userId
         end
     end)
    (rethrow_api "Failed to sync subscription status").

End Receipts.

(** [errorHandler(err, req, res, next)] of [error.middleware.ts].  Every
    [ApiError] of this code is built with two arguments, so that
    [isOperational] is [true]; the branch for [ZodError] is left out, since
    nothing modelled here throws one. *)
Definition errorHandler (err : exn) : response :=
  match err with
  | ApiError statusCode message =>
      Response statusCode
               (JObj [ ("status", JStr "error");
                       ("message", JStr message);
                       ("isOperational", JBool true) ])
  | _ =>
      Response 500
               (JObj [ ("status", JStr "error");
                       ("message", JStr "Internal server error") ])
  end.

(** The client endpoints of [subscription.controller.ts]. *)
Module Controller.

(** What a client request carries: [req.user], set by the authentication
    middleware, and [req.body]. *)
Record client_request : Type := ClientRequest
  { user : jsval;
    client_body : jsval }.

(** What a controller does in the end: [res.status(200).json(view)] or
    [next(error)]. *)
Inductive outcome : Type :=
| Sent (view : SubscriptionStatus)
| Next (error : exn).

(** [try { ... res.status(200).json(result) } catch (error) { next(error) }] *)
Definition respond (c : eff SubscriptionStatus) : eff outcome :=
  fun st =>
    match c st with
    | (Ret view, st') => (Ret (Sent view), st')
    | (Throw e, st') => (Ret (Next e), st')
    end.

(** [const userId = req.user?.id; if (!userId) throw new ApiError(401, ...)] *)
Definition require_user (req : client_request) : comp jsval :=
  let userId := opt_prop (user req) "id" in
  if negb (truthy userId) then Throw (ApiError 401 "User ID not found")
  else Ret userId.

Section Endpoints.

Variable Date_parse : jsval -> jsdate.
Variable toISOString : Z -> string.
Variable setMonth_next : Z -> Z.
Variable setFullYear_next : Z -> Z.

(** [getSubscriptionStatus(req, res, next)] *)
Definition getSubscriptionStatus (now : Z) (o : db_outcome)
  (req : client_request) : eff outcome :=
  respond
    (userId <~ pure (require_user req) ;;
     getSubscriptionStatus Date_parse now o userId).

(** [validateSubscription(req, res, next)] *)
Definition validateSubscription (cfg : plan_ids) (now now_status : Z)
  (o_save o_read : db_outcome) (req : client_request) : eff outcome :=
  respond
    (userId <~ pure (require_user req) ;;
     receipt <~ pure (prop (client_body req) "receipt") ;;
     productId <~ pure (prop (client_body req) "productId") ;;
     platform <~ pure (prop (client_body req) "platform") ;;
     if negb (truthy receipt) || negb (truthy productId)
        || negb (truthy platform)
     then pure (Throw (ApiError 400
                         "Receipt, productId, and platform are required"))
     else validateReceipt Date_parse toISOString setMonth_next setFullYear_next
            cfg now now_status o_save o_read userId receipt productId platform).

(** [syncSubscription(req, res, next)] *)
Definition syncSubscription (now : Z) (o_first o_second : db_outcome)
  (req : client_request) : eff outcome :=
  respond
    (userId <~ pure (require_user req) ;;
     syncSubscriptionStatus Date_parse now o_first o_second userId).

End Endpoints.

(** The status code the client receives: 200 from the controller, or the
    one [errorHandler] sends for the error passed to [next]. *)
Definition status_code (o : outcome) : Z :=
  match o with
  | Sent _ => 200%Z
  | Next e => status (errorHandler e)
  end.

End Controller.

(* ================================================================== *)
(** ** [src/app.ts]: what stands in front of the webhook handler *)
(* ================================================================== *)

(** A request as it arrives: its path, its headers and the text of its
    body. *)
Record http_request : Type := HttpRequest
  { path : string;
    http_headers : jsval;
    text : string }.

(** The path of [router.post('/webhook', handleWebhook)], mounted on
    [/api/v1/subscription]. *)
Definition webhook_path : string := "/api/v1/subscription/webhook".

(** [captureRawBody(req, res, next)] of [raw-body.middleware.ts]: what it
    leaves in [req.rawBody].  A header is a string or [undefined]; an
    error of the request stream is not modelled. *)
Definition captureRawBody (req : http_request) : jsval :=
  if negb (includes (path req) "/webhook")
     || negb (match js_get (http_headers req) "content-type" with
              | JStr contentType => includes contentType "application/json"
              | _ => false
              end)
  then JUndef
  else JStr (text req).

(** [apiLimiter], the [rateLimit({ windowMs, max: 100, ... })] mounted on
    [/api]: [hits] is the number of requests the limiter has counted for
    the client in the current window, this one included; beyond [max] it
    answers 429 with its message and the request goes no further. *)
Definition apiLimiter (hits : nat) : option response :=
  if (100 <? hits)%nat
  then Some (Response 429 (JStr "Too many requests, please try again later."))
  else None.

Section App.

Variable jwt_verify : string -> jsval -> comp jsval.
Variable millis_toISOString : jsval -> comp jsval.
Variable JSON_stringify : jsval -> jsval.

(** [express.json()] and [express.urlencoded()], of the [express] package:
    the [req.body] they leave, or the error they pass to [next]. *)
Variable body_parsers : http_request -> comp jsval.

(** The application on a [POST] to the webhook route: the middlewares of
    [app.ts] in their order ([helmet], [cors], [compression] and [morgan]
    answer no such request and are left out), the route, and
    [errorHandler] for what is passed to [next]. *)
Definition post_webhook (hits : nat) (now : string) (o1 o2 : db_outcome)
  (env : environment) (req : http_request) : eff response :=
  let rawBody := captureRawBody req in
  match body_parsers req with
  | Throw err => eff_ret (errorHandler err)
  | Ret body =>
      match apiLimiter hits with
      | Some refusal => eff_ret refusal
      | None =>
          handleWebhook jwt_verify millis_toISOString JSON_stringify
            now o1 o2 env (Request body (http_headers req) rawBody)
      end
  end.

(** Whether the handler accepts a request: a provider is determined, its
    secret is configured, its signature header is there, and the
    signature is verified against the raw body. *)
Definition verified (env : environment) (req : request) : Prop :=
  exists provider signature,
    determineProvider (headers req) (body req) = Ret (Some provider)
    /\ truthy (getWebhookSecret env provider) = true
    /\ getSignatureFromHeaders (headers req) provider = Ret signature
    /\ truthy signature = true
    /\ verifyWebhookSignature jwt_verify
         (js_or (rawBody req) (JSON_stringify (body req))) signature
         (getWebhookSecret env provider)
       = Ret true.

End App.

(** The messages of the error answers of [handleWebhook]. *)
Definition error_messages : list string :=
  [ "Unknown provider"; "Configuration error"; "Missing signature";
    "Invalid signature"; "Error processing webhook" ].

(** A body parser for the examples: it knows the JSON text of the given
    bodies, and passes a syntax error to [next] for every other text. *)
Definition known_bodies (bodies : list jsval) (req : http_request)
  : comp jsval :=
  match find (fun b => Sample.json_text b =? text req) bodies with
  | Some b => Ret b
  | None => Throw (Error "SyntaxError: Unexpected end of JSON input")
  end.

(** The signed sample request as it arrives, and a request whose body is
    cut short. *)
Definition arriving (b : jsval) : http_request :=
  HttpRequest webhook_path (headers (Sample.signed_request b))
              (Sample.json_text b).

Definition cut_short : http_request :=
  HttpRequest webhook_path
              (JObj [("content-type", JStr "application/json")]) "{".

(** A UTC calendar, to run the receipt path on dates. *)
Module Utc.

Local Open Scope Z_scope.

(** Days since 1970-01-01 of a civil date, the month counted from 1 and
    allowed to exceed 12, the day allowed to exceed the month. *)
Definition days_from_civil (y m d : Z) : Z :=
  let y0 := y + (m - 1) / 12 in
  let m0 := (m - 1) mod 12 + 1 in
  let y1 := if m0 <=? 2 then y0 - 1 else y0 in
  let era := y1 / 400 in
  let yoe := y1 - era * 400 in
  let mp := (m0 + 9) mod 12 in
  let doy := (153 * mp + 2) / 5 + d - 1 in
  let doe := yoe * 365 + yoe / 4 - yoe / 100 + doy in
  era * 146097 + doe - 719468.

(** The civil date (year, month from 1, day) of a day number. *)
Definition civil_from_days (z : Z) : Z * Z * Z :=
  let z0 := z + 719468 in
  let era := z0 / 146097 in
  let doe := z0 - era * 146097 in
  let yoe := (doe - doe / 1460 + doe / 36524 - doe / 146096) / 365 in
  let doy := doe - (365 * yoe + yoe / 4 - yoe / 100) in
  let mp := (5 * doy + 2) / 153 in
  let d := doy - (153 * mp + 2) / 5 + 1 in
  let m := if mp <? 10 then mp + 3 else mp - 9 in
  let y := yoe + era * 400 + (if m <=? 2 then 1 else 0) in
  (y, m, d).

Definition ms_per_day : Z := 86400000.

(** [setMonth(getMonth() + 1)] and [setFullYear(getFullYear() + 1)] in UTC. *)
Definition setMonth_next (t : Z) : Z :=
  let '(y, m, d) := civil_from_days (t / ms_per_day) in
  days_from_civil y (m + 1) d * ms_per_day + t mod ms_per_day.

Definition setFullYear_next (t : Z) : Z :=
  let '(y, m, d) := civil_from_days (t / ms_per_day) in
  days_from_civil (y + 1) m d * ms_per_day + t mod ms_per_day.

Definition digit (n : Z) : ascii := ascii_of_N (Z.to_N (48 + n mod 10)).

Definition digits2 (n : Z) : string :=
  String (digit (n / 10)) (String (digit n) "").

Definition digits3 (n : Z) : string := String (digit (n / 100)) (digits2 n).

Definition digits4 (n : Z) : string := String (digit (n / 1000)) (digits3 n).

(** [toISOString()] for the years 0 to 9999. *)
Definition toISOString (t : Z) : string :=
  let '(y, m, d) := civil_from_days (t / ms_per_day) in
  let ms := t mod ms_per_day in
  (digits4 y ++ "-" ++ digits2 m ++ "-" ++ digits2 d ++ "T"
   ++ digits2 (ms / 3600000) ++ ":" ++ digits2 (ms / 60000 mod 60) ++ ":"
   ++ digits2 (ms / 1000 mod 60) ++ "." ++ digits3 (ms mod 1000) ++ "Z")%string.

Definition digit_value (c : ascii) : option Z :=
  let n := Z.of_N (N_of_ascii c) in
  if (48 <=? n) && (n <=? 57) then Some (n - 48) else None.

(** The number written by a run of digits. *)
Fixpoint number (acc : Z) (cs : list ascii) : option Z :=
  match cs with
  | [] => Some acc
  | c :: cs' =>
      match digit_value c with
      | Some v => number (acc * 10 + v) cs'
      | None => None
      end
  end.

Definition field (from len : nat) (s : string) : option Z :=
  number 0 (list_ascii_of_string (substring from len s)).

(** [new Date(v)] on the strings that [toISOString] writes; every other
    value is an invalid date. *)
Definition Date_parse (v : jsval) : jsdate :=
  match v with
  | JStr s =>
      if (String.length s =? 24)%nat
         && (substring 4 1 s =? "-")%string && (substring 7 1 s =? "-")%string
         && (substring 10 1 s =? "T")%string && (substring 13 1 s =? ":")%string
         && (substring 16 1 s =? ":")%string && (substring 19 1 s =? ".")%string
         && (substring 23 1 s =? "Z")%string
      then
        match field 0 4 s, field 5 2 s, field 8 2 s, field 11 2 s,
              field 14 2 s, field 17 2 s, field 20 3 s with
        | Some y, Some m, Some d, Some h, Some mi, Some sec, Some ms =>
            if (1 <=? m) && (m <=? 12) && (1 <=? d) && (d <=? 31)
               && (h <? 24) && (mi <? 60) && (sec <? 60)
            then Some (days_from_civil y m d * ms_per_day
                       + h * 3600000 + mi * 60000 + sec * 1000 + ms)
            else None
        | _, _, _, _, _, _, _ => None
        end
      else None
  | _ => None
  end.

End Utc.

(* ================================================================== *)
(** ** Vocabulary of the properties *)
(* ================================================================== *)

(** The value of a hexadecimal digit. *)
Definition hex_value (c : ascii) : Z :=
  let n := Z.of_N (N_of_ascii c) in
  if (n <? 58)%Z then (n - 48)%Z else (n - 87)%Z.

(** Whether a character occurs in a string. *)
Fixpoint occurs (c : ascii) (s : string) : bool :=
  match s with
  | EmptyString => false
  | String d s' => Ascii.eqb d c || occurs c s'
  end.

(** Flipping bit [i] of a string (bit [i mod 8] of character [i / 8]). *)
Definition flip_ascii (j : nat) (c : ascii) : ascii :=
  ascii_of_N (N.lxor (N_of_ascii c) (2 ^ N.of_nat j)).

Fixpoint flip_bit (i : nat) (s : string) : string :=
  match s with
  | EmptyString => EmptyString
  | String c s' =>
      if (i <? 8)%nat then String (flip_ascii i c) s'
      else String c (flip_bit (i - 8) s')
  end.


(** [v === undefined || v === null] *)
Definition nullish (v : jsval) : bool :=
  match v with
  | JUndef | JNull => true
  | _ => false
  end.

(** A response of the always-200 contract. *)
Definition acknowledges (r : response) : Prop :=
  status r = 200%Z
  /\ (json r = JObj [("status", JStr "ok")]
      \/ exists message,
          json r = JObj [("status", JStr "error"); ("message", JStr message)]).

(** Whether [jwt.verify] returns. *)
Definition jwt_accepts (jwt_verify : string -> jsval -> comp jsval)
  (token : string) (secret : jsval) : bool :=
  match jwt_verify token secret with
  | Ret _ => true
  | Throw _ => false
  end.

(** The user a notification names: [notification.userId || notification.user_id]. *)
Definition notification_user (notification : jsval) : jsval :=
  js_or (js_get notification "userId") (js_get notification "user_id").

(** The rows that do not answer to a user id, in their order. *)
Definition rows_of_others (key : jsval) (rows : list Sub.row) : list Sub.row :=
  filter (fun r => negb (sql_eq (Sub.user_id r) key)) rows.

(** The rows that answer to a user id. *)
Definition rows_of (key : jsval) (rows : list Sub.row) : list Sub.row :=
  filter (fun r => sql_eq (Sub.user_id r) key) rows.

(** The Google message types and numeric codes the parser knows. *)
Definition google_message_kinds : list (string * string) :=
  [ ("SUBSCRIPTION_PURCHASED", "purchased");
    ("SUBSCRIPTION_RENEWED", "renewed");
    ("SUBSCRIPTION_EXPIRED", "expired");
    ("SUBSCRIPTION_REVOKED", "refunded") ].

Definition google_code_kinds : list (Z * string) :=
  [ (1%Z, "purchased"); (2%Z, "renewed"); (3%Z, "expired"); (4%Z, "refunded") ].

(** The kind the table gives to a value read as a numeric code. *)
Definition google_kind_of_code (v : jsval) : string :=
  match v with
  | JNum c =>
      match find (fun p => (c =? fst p)%Z) google_code_kinds with
      | Some p => snd p
      | None => "unknown"
      end
  | _ => "unknown"
  end.

(** The identifiers of a details object that the handlers go on to read. *)
Definition detail_ids : list string :=
  [ "originalTransactionId"; "productId"; "transactionId" ].

(** The lineage a notification names. *)
Definition notification_lineage (notification : jsval) : jsval :=
  js_or (js_get notification "originalTransactionId")
        (js_get notification "original_transaction_id").

(** The product a notification names. *)
Definition notification_product (notification : jsval) : jsval :=
  js_or (js_get notification "productId") (js_get notification "product_id").

(** The transaction a notification names. *)
Definition notification_transaction (notification : jsval) : jsval :=
  js_or (js_get notification "transactionId")
        (js_get notification "transaction_id").

(** The row a purchase inserts, and the record a refund appends. *)
Definition purchased_row (notification : jsval) (now : string) : Sub.row :=
  purchased_values (notification_user notification)
                   (notification_product notification)
                   (notification_transaction notification) now Sub.default.


(** The columns of a row that [getSubscriptionStatus] reads. *)
Definition status_columns (r : Sub.row) : jsval * jsval * jsval * jsval * jsval :=
  (Sub.user_id r, Sub.plan r, Sub.expiry_date r, Sub.is_lifetime r,
   Sub.trial_end_date r).

(** A computation that, when it returns, returns an object. *)
Definition object_or_throw (c : comp jsval) : Prop :=
  match c with
  | Ret v => exists fields, v = JObj fields
  | Throw _ => True
  end.

(** A database call that does not end by throwing an [ApiError]. *)
Definition not_api_error (o : db_outcome) : Prop :=
  match o with
  | DbThrows (ApiError _ _) => False
  | _ => True
  end.

(* ================================================================== *)
(** * Properties *)
(* ================================================================== *)

(** ** The digest functions *)

(** FIPS 180-4 and RFC 4231 test vectors. *)
Example sha256_abc :
  Crypto.hex (Crypto.sha256 (Crypto.bytes_of_string "abc"))
  = "ba7816bf8f01cfea414140de5dae2223b00361a396177a9cb410ff61f20015ad".
Proof. vm_compute. reflexivity. Qed.

Example hmac_sha256_rfc4231_case2 :
  Crypto.hex (Crypto.hmac_sha256 "Jefe" "what do ya want for nothing?")
  = "5bdcc146bf60754e6a042426089575c75a003f089d2739839dec58b964ec3843".
Proof. vm_compute. reflexivity. Qed.

Example base64_foobar :
  Crypto.base64 (Crypto.bytes_of_string "fooba") = "Zm9vYmE="
  /\ Crypto.base64 (Crypto.bytes_of_string "foob") = "Zm9vYg=="
  /\ Crypto.base64 (Crypto.bytes_of_string "foobar") = "Zm9vYmFy".
Proof. vm_compute. repeat split. Qed.

(** The JSON text of a value. *)
Example json_text_example :
  Sample.json_text
    (JObj [("a", JNum 1); ("b", JArr [JBool true; JNull]); ("c", JUndef);
           ("d", JStr "x")])
  = ("{" ++ Sample.quote ++ "a" ++ Sample.quote ++ ":1,"
         ++ Sample.quote ++ "b" ++ Sample.quote ++ ":[true,null],"
         ++ Sample.quote ++ "d" ++ Sample.quote ++ ":"
         ++ Sample.quote ++ "x" ++ Sample.quote ++ "}")%string.
Proof. vm_compute. reflexivity. Qed.

(** The signatures used in the examples below, as Node computes them. *)
Example sample_signatures :
  Crypto.base64 (Crypto.hmac_sha256 "whsec_live" "{}")
  = "hMLKWUZoaLCu46tLzGNwVf1UbJx9LnCuy7X1ld3Gduc="
  /\ Sample.apple_signature "{}"
     = "sha256=84c2ca59466868b0aee3ab4bcc637055fd546c9c7d2e70aecbb5f595ddc676e7"
  /\ Sample.apple_signature (Sample.json_text Sample.initial_buy_body)
     = "sha256=958f8a0198465fa100f0d3e1e11d0d1323367322de3688de2c36df7a0bc52200".
Proof. vm_compute. split; [| split]; reflexivity. Qed.

Lemma bytes_of_word_range x :
  Forall (fun b => 0 <= b < 256)%Z (Crypto.bytes_of_word x).
Proof.
  unfold Crypto.bytes_of_word.
  repeat constructor; apply Z.mod_pos_bound; lia.
Qed.

Lemma digest_bytes_range s :
  Forall (fun b => 0 <= b < 256)%Z (Crypto.digest_bytes s).
Proof.
  unfold Crypto.digest_bytes.
  repeat (apply Forall_app; split); apply bytes_of_word_range.
Qed.

Lemma digest_bytes_length s : List.length (Crypto.digest_bytes s) = 32%nat.
Proof. reflexivity. Qed.

(** A SHA-256 digest is 32 bytes. *)
Lemma sha256_length msg : List.length (Crypto.sha256 msg) = 32%nat.
Proof. unfold Crypto.sha256. apply digest_bytes_length. Qed.

Lemma sha256_range msg : Forall (fun b => 0 <= b < 256)%Z (Crypto.sha256 msg).
Proof. unfold Crypto.sha256. apply digest_bytes_range. Qed.

Lemma hmac_sha256_length key msg :
  List.length (Crypto.hmac_sha256 key msg) = 32%nat.
Proof. apply sha256_length. Qed.

Lemma hmac_sha256_range key msg :
  Forall (fun b => 0 <= b < 256)%Z (Crypto.hmac_sha256 key msg).
Proof. apply sha256_range. Qed.

Lemma hex_value_digit n :
  (0 <= n < 16)%Z -> hex_value (Crypto.hex_digit n) = n.
Proof.
  intros H. rewrite <- (Z2Nat.id n) by lia.
  assert (Z.to_nat n < 16)%nat as Hk by lia.
  revert Hk. generalize (Z.to_nat n). intros k Hk.
  do 16 (destruct k as [|k]; [reflexivity|]). lia.
Qed.

Lemma hex_digit_inj a b :
  (0 <= a < 16)%Z -> (0 <= b < 16)%Z ->
  Crypto.hex_digit a = Crypto.hex_digit b -> a = b.
Proof.
  intros Ha Hb E.
  rewrite <- (hex_value_digit a Ha), <- (hex_value_digit b Hb), E.
  reflexivity.
Qed.

(** The hex rendering of byte strings is injective. *)
Lemma hex_inj a :
  forall b,
    Forall (fun x => 0 <= x < 256)%Z a -> Forall (fun x => 0 <= x < 256)%Z b ->
    Crypto.hex a = Crypto.hex b -> a = b.
Proof.
  induction a as [|x a IH]; intros [|y b] Ha Hb E; simpl in E;
    try discriminate; [reflexivity|].
  inversion Ha as [|? ? Hx Ha']; inversion Hb as [|? ? Hy Hb']; subst.
  injection E as E1 E2 E3.
  assert (forall z, 0 <= z < 256 -> 0 <= z / 16 < 16)%Z as Hdiv
      by (intros z Hz; split;
          [apply Z.div_pos; lia | apply Z.div_lt_upper_bound; lia]).
  assert (forall z, 0 <= z mod 16 < 16)%Z as Hmod
      by (intros z; apply Z.mod_pos_bound; lia).
  apply hex_digit_inj in E1; [| apply Hdiv; assumption ..].
  apply hex_digit_inj in E2; [| apply Hmod ..].
  f_equal; [| apply IH; assumption].
  rewrite (Z.div_mod x 16), (Z.div_mod y 16) by lia.
  rewrite E1, E2. reflexivity.
Qed.

Lemma bytes_of_string_inj a :
  forall b, Crypto.bytes_of_string a = Crypto.bytes_of_string b -> a = b.
Proof.
  unfold Crypto.bytes_of_string.
  induction a as [|c a IH]; intros [|d b] E; simpl in E; try discriminate;
    [reflexivity|].
  injection E as E1 E2.
  apply N2Z.inj in E1.
  assert (c = d) as ->
      by (rewrite <- (ascii_N_embedding c), <- (ascii_N_embedding d), E1;
          reflexivity).
  f_equal. apply IH. exact E2.
Qed.

Lemma bytes_eqb_eq a : forall b, bytes_eqb a b = true <-> a = b.
Proof.
  induction a as [|x a IH]; intros [|y b]; simpl; split; intros E;
    try discriminate; try reflexivity.
  - apply andb_true_iff in E as [E1 E2].
    apply Z.eqb_eq in E1. apply IH in E2. subst. reflexivity.
  - injection E as -> ->. rewrite Z.eqb_refl. apply IH. reflexivity.
Qed.

Lemma append_inj_l p : forall x y, (p ++ x)%string = (p ++ y)%string -> x = y.
Proof.
  induction p as [|c p IH]; simpl; intros x y E; [exact E|].
  injection E as E. apply IH. exact E.
Qed.

Lemma startsWith_append p : forall s, startsWith (p ++ s) p = true.
Proof.
  induction p as [|c p IH]; simpl; intros s; [reflexivity|].
  rewrite Ascii.eqb_refl. apply IH.
Qed.

Lemma b64_char_not c :
  c = "."%char \/ c = "="%char -> forall n, Ascii.eqb (Crypto.b64_char n) c = false.
Proof.
  intros Hc n. unfold Crypto.b64_char.
  set (alphabet := list_ascii_of_string _).
  assert (Forall (fun a => Ascii.eqb a c = false) alphabet) as Hall
      by (destruct Hc as [-> | ->]; repeat constructor).
  destruct (nth_in_or_default (Z.to_nat n) alphabet "A"%char) as [Hin | ->].
  - revert Hin. generalize (nth (Z.to_nat n) alphabet "A"%char).
    apply Forall_forall. exact Hall.
  - destruct Hc as [-> | ->]; reflexivity.
Qed.

Lemma base64_no_dot : forall bs, occurs "." (Crypto.base64 bs) = false.
Proof.
  fix IH 1.
  intros [|b0 [|b1 [|b2 rest]]]; simpl;
    rewrite ?(b64_char_not "."%char (or_introl eq_refl)); try reflexivity.
  apply IH.
Qed.

Lemma split_no_sep sep s : occurs sep s = false -> split sep s = [s].
Proof.
  induction s as [|c s IH]; simpl; intros H; [reflexivity|].
  apply orb_false_iff in H as [H1 H2].
  rewrite H1, (IH H2). reflexivity.
Qed.

Lemma base64_nonempty bs : bs <> [] -> Crypto.base64 bs <> "".
Proof.
  destruct bs as [|b0 [|b1 [|b2 rest]]]; simpl; intros H;
    [contradiction | discriminate ..].
Qed.

(** A base64 digest of at least five bytes does not start with [sha256=]:
    its seventh character belongs to the alphabet. *)
Lemma base64_not_prefixed bs :
  (5 <= List.length bs)%nat -> startsWith (Crypto.base64 bs) "sha256=" = false.
Proof.
  destruct bs as [|b0 [|b1 [|b2 [|b3 [|b4 rest]]]]]; simpl; try lia.
  intros _.
  destruct rest as [|b5 rest]; simpl;
    rewrite (b64_char_not "="%char (or_intror eq_refl));
    rewrite ?andb_false_r; reflexivity.
Qed.

Example flip_bit_example : flip_bit 8 "ab" = "ac".
Proof. reflexivity. Qed.

(* ================================================================== *)
(** ** [verifyWebhookSignature] *)
(* ================================================================== *)

Lemma truthy_str s : truthy (JStr s) = true <-> s <> "".
Proof.
  simpl. rewrite negb_true_iff. split.
  - intros H ->. discriminate.
  - intros H. apply String.eqb_neq. exact H.
Qed.

Lemma falsy_is_str v lit : truthy v = false -> lit <> "" -> is_str v lit = false.
Proof.
  destruct v; simpl; intros H Hl; try reflexivity.
  apply negb_false_iff, String.eqb_eq in H. subst s.
  apply String.eqb_neq. congruence.
Qed.

Lemma is_str_neq s lit : s <> lit -> is_str (JStr s) lit = false.
Proof. intros H. simpl. apply String.eqb_neq. exact H. Qed.

Lemma timingSafeEqual_neq a b :
  a <> b -> try_catch (timingSafeEqual a b) (fun _ => Ret false) = Ret false.
Proof.
  intros H. unfold timingSafeEqual.
  destruct (List.length a =? List.length b)%nat; [| reflexivity].
  simpl. f_equal. apply not_true_is_false. intros E.
  apply bytes_eqb_eq in E. contradiction.
Qed.

Lemma timingSafeEqual_refl a : timingSafeEqual a a = Ret true.
Proof.
  unfold timingSafeEqual. rewrite Nat.eqb_refl.
  f_equal. apply bytes_eqb_eq. reflexivity.
Qed.

Section SignatureProperties.

Variable jwt_verify : string -> jsval -> comp jsval.

Local Abbreviation verify := (verifyWebhookSignature jwt_verify).

(** The outer [try]/[catch] turns every exception into [false]. *)
Lemma verify_returns payload signature secret :
  exists b, verify payload signature secret = Ret b.
Proof.
  unfold verifyWebhookSignature.
  match goal with |- exists b, try_catch ?c _ = _ => destruct c end;
    simpl; eauto.
Qed.

Lemma verify_missing payload signature secret :
  truthy payload = false \/ truthy signature = false \/ truthy secret = false ->
  verify payload signature secret = Ret false.
Proof.
  intros H. unfold verifyWebhookSignature.
  assert (negb (truthy payload) || negb (truthy signature)
          || negb (truthy secret) = true) as ->; [| reflexivity].
  destruct H as [-> | [-> | ->]]; simpl; rewrite ?orb_true_r; reflexivity.
Qed.

Lemma verify_non_string_signature payload signature secret :
  (forall s, signature <> JStr s) ->
  verify payload signature secret = Ret false.
Proof.
  intros H. unfold verifyWebhookSignature.
  destruct (negb (truthy payload) || negb (truthy signature)
            || negb (truthy secret)); [reflexivity|].
  assert (forall lit, is_str signature lit = false) as Hlit
      by (intros lit; destruct signature; try reflexivity;
          exfalso; eapply H; reflexivity).
  destruct (is_str secret "apple").
  { destruct (createHmac_sha256 _ payload); simpl; rewrite ?Hlit; reflexivity. }
  destruct (is_str secret "google").
  { rewrite !Hlit. reflexivity. }
  destruct signature; try reflexivity.
  exfalso. eapply H. reflexivity.
Qed.

Lemma verify_unknown_format payload sig secret :
  is_str secret "apple" = false -> is_str secret "google" = false ->
  startsWith sig "sha256=" = false ->
  List.length (split "." sig) <> 3%nat ->
  verify payload (JStr sig) secret = Ret false.
Proof.
  intros Ha Hg Hp Hs. unfold verifyWebhookSignature.
  destruct (negb (truthy payload) || negb (truthy (JStr sig))
            || negb (truthy secret)); [reflexivity|].
  rewrite Ha, Hg, Hp.
  apply Nat.eqb_neq in Hs. rewrite Hs. reflexivity.
Qed.

(** The production path on string arguments. *)
Lemma verify_production body sig secret :
  body <> "" -> sig <> "" -> secret <> "" ->
  secret <> "apple" -> secret <> "google" ->
  verify (JStr body) (JStr sig) (JStr secret)
  = if startsWith sig "sha256=" then
      try_catch
        (timingSafeEqual
           (Crypto.bytes_of_string sig)
           (Crypto.bytes_of_string
              ("sha256=" ++ Crypto.hex (Crypto.hmac_sha256 secret body))))
        (fun _ => Ret false)
    else if (List.length (split "." sig) =? 3)%nat then
      try_catch (try_catch (_ <- jwt_verify sig (JStr secret) ;; Ret true)
                           (fun _ => Ret false))
                (fun _ => Ret false)
    else Ret false.
Proof.
  intros Hb Hs Hk Ha Hg. unfold verifyWebhookSignature.
  apply truthy_str in Hb, Hs, Hk. rewrite Hb, Hs, Hk.
  rewrite (is_str_neq _ _ Ha), (is_str_neq _ _ Hg).
  cbn [negb orb createHmac_sha256 bind].
  destruct (startsWith sig "sha256="); [reflexivity|].
  destruct (List.length (split "." sig) =? 3)%nat; reflexivity.
Qed.

Lemma verify_hex_accepted body secret :
  body <> "" -> secret <> "" -> secret <> "apple" -> secret <> "google" ->
  verify (JStr body)
         (JStr ("sha256=" ++ Crypto.hex (Crypto.hmac_sha256 secret body)))
         (JStr secret)
  = Ret true.
Proof.
  intros Hb Hk Ha Hg.
  rewrite verify_production by (try assumption; discriminate).
  rewrite startsWith_append, timingSafeEqual_refl. reflexivity.
Qed.

Lemma verify_hex_other_body body body' secret :
  secret <> "" -> secret <> "apple" -> secret <> "google" ->
  Crypto.hmac_sha256 secret body' <> Crypto.hmac_sha256 secret body ->
  verify (JStr body')
         (JStr ("sha256=" ++ Crypto.hex (Crypto.hmac_sha256 secret body)))
         (JStr secret)
  = Ret false.
Proof.
  intros Hk Ha Hg Hd.
  destruct (string_dec body' "") as [-> | Hb'].
  { apply verify_missing. left. reflexivity. }
  rewrite verify_production by (try assumption; discriminate).
  rewrite startsWith_append.
  apply timingSafeEqual_neq. intros E.
  apply bytes_of_string_inj, append_inj_l, hex_inj in E;
    [| apply hmac_sha256_range ..].
  congruence.
Qed.

Lemma verify_base64_rejected body secret :
  secret <> "apple" -> secret <> "google" ->
  verify (JStr body) (JStr (Crypto.base64 (Crypto.hmac_sha256 secret body)))
         (JStr secret)
  = Ret false.
Proof.
  intros Ha Hg.
  apply verify_unknown_format.
  - apply is_str_neq. exact Ha.
  - apply is_str_neq. exact Hg.
  - apply base64_not_prefixed. rewrite hmac_sha256_length. lia.
  - rewrite split_no_sep by apply base64_no_dot. discriminate.
Qed.

(** The test path: under the reserved secret [apple] the key is the fixed
    [test-apple-secret] and the signature is compared in base64. *)
Lemma verify_test_path body :
  body <> "" ->
  verify (JStr body)
         (JStr (Crypto.base64 (Crypto.hmac_sha256 "test-apple-secret" body)))
         (JStr "apple")
  = Ret true.
Proof.
  intros Hb. unfold verifyWebhookSignature.
  apply truthy_str in Hb. rewrite Hb.
  assert (truthy (JStr (Crypto.base64
                          (Crypto.hmac_sha256 "test-apple-secret" body))) = true)
    as ->.
  { apply truthy_str, base64_nonempty. intros E.
    pose proof (hmac_sha256_length "test-apple-secret" body) as Hl.
    rewrite E in Hl. discriminate. }
  cbn [truthy negb orb is_str String.eqb Ascii.eqb Bool.eqb andb
       createHmac_sha256 bind try_catch].
  rewrite String.eqb_refl. reflexivity.
Qed.

(** Under the reserved secrets the answer does not depend on
    [jwt.verify] nor on the secret as a key. *)
Lemma verify_reserved payload signature :
  truthy payload = true ->
  verify payload signature (JStr "google")
  = Ret (is_str signature "valid-jwt-token")
  /\ verify payload signature (JStr "apple")
     = Ret (match payload with
            | JStr body =>
                is_str signature
                  (Crypto.base64 (Crypto.hmac_sha256 "test-apple-secret" body))
            | _ => false
            end).
Proof.
  intros Tp.
  destruct (truthy signature) eqn:Ts.
  2:{ split; rewrite verify_missing by (right; left; exact Ts).
      - rewrite (falsy_is_str _ _ Ts) by discriminate. reflexivity.
      - destruct payload; try reflexivity.
        rewrite (falsy_is_str _ _ Ts); [reflexivity |].
        apply base64_nonempty. intros E.
        pose proof (hmac_sha256_length "test-apple-secret" s) as Hl.
        rewrite E in Hl. discriminate Hl. }
  split.
  - unfold verifyWebhookSignature. rewrite Tp, Ts.
    change (negb true || negb true || negb (truthy (JStr "google"))) with false.
    change (is_str (JStr "google") "apple") with false.
    change (is_str (JStr "google") "google") with true.
    cbv iota.
    destruct (is_str signature "valid-jwt-token").
    + destruct (jwt_verify _ _); reflexivity.
    + destruct (is_str signature "invalid-jwt-token"); reflexivity.
  - unfold verifyWebhookSignature. rewrite Tp, Ts.
    change (negb true || negb true || negb (truthy (JStr "apple"))) with false.
    change (is_str (JStr "apple") "apple") with true.
    cbv iota.
    destruct payload; reflexivity.
Qed.

End SignatureProperties.

(** C7, as amended.  For every non-empty body and every non-empty secret
    other than the test names [apple] and [google],
    [verify(body, "sha256=" + hex(HMAC_SHA256(secret, body)), secret)] is
    [true]; the base64 rendering of the same HMAC is refused, base64 being
    accepted only under the test name [apple], where the key is the fixed
    [test-apple-secret]; and after a single-bit mutation of the body the
    hex signature is refused whenever the HMAC of the mutated body differs
    from the HMAC of the original. *)
Theorem storeA_signature_hex_only :
  forall jwt_verify body secret,
    body <> "" -> secret <> "" -> secret <> "apple" -> secret <> "google" ->
    let hmac := Crypto.hmac_sha256 secret body in
    verifyWebhookSignature jwt_verify (JStr body)
      (JStr ("sha256=" ++ Crypto.hex hmac)) (JStr secret) = Ret true
    /\ verifyWebhookSignature jwt_verify (JStr body)
         (JStr (Crypto.base64 hmac)) (JStr secret) = Ret false
    /\ verifyWebhookSignature jwt_verify (JStr body)
         (JStr (Crypto.base64 (Crypto.hmac_sha256 "test-apple-secret" body)))
         (JStr "apple") = Ret true
    /\ forall i,
         Crypto.hmac_sha256 secret (flip_bit i body) <> hmac ->
         verifyWebhookSignature jwt_verify (JStr (flip_bit i body))
           (JStr ("sha256=" ++ Crypto.hex hmac)) (JStr secret) = Ret false.
Proof.
  intros jwt_verify body secret Hb Hk Ha Hg hmac. subst hmac.
  split; [| split; [| split]].
  - apply verify_hex_accepted; assumption.
  - apply verify_base64_rejected; assumption.
  - apply verify_test_path; assumption.
  - intros i Hd. apply verify_hex_other_body; assumption.
Qed.

(** The amended C7 at the body [{}] with the secret [whsec_live] and the
    lowest bit of the first character flipped. *)
Lemma storeA_signature_hex_only_witness :
  let hmac := Crypto.hmac_sha256 "whsec_live" "{}" in
  verifyWebhookSignature Sample.jwt_verify (JStr "{}")
    (JStr ("sha256=" ++ Crypto.hex hmac)) (JStr "whsec_live") = Ret true
  /\ verifyWebhookSignature Sample.jwt_verify (JStr "{}")
       (JStr (Crypto.base64 hmac)) (JStr "whsec_live") = Ret false
  /\ verifyWebhookSignature Sample.jwt_verify (JStr (flip_bit 0 "{}"))
       (JStr ("sha256=" ++ Crypto.hex hmac)) (JStr "whsec_live") = Ret false.
Proof.
  destruct (storeA_signature_hex_only Sample.jwt_verify "{}" "whsec_live")
    as (H1 & H2 & _ & H3); [discriminate .. |].
  split; [exact H1 | split; [exact H2 |]].
  apply (H3 0%nat). vm_compute. discriminate.
Defined.

(** C7 as stated fails: the base64 HMAC-SHA256 of the body under the
    configured secret is not accepted. *)
Lemma storeA_base64_signature_refused :
  verifyWebhookSignature Sample.jwt_verify (JStr "{}")
    (JStr (Crypto.base64 (Crypto.hmac_sha256 "whsec_live" "{}")))
    (JStr "whsec_live")
  = Ret false.
Proof. vm_compute. reflexivity. Qed.

(** C8, as amended.  [verifyWebhookSignature] returns for every input and
    never throws; a missing (falsy) body, signature or secret gives
    [false]; so does a signature that is not a string.  When the secret is
    neither of the reserved names [apple] and [google], a signature that
    has neither the [sha256=] prefix nor three dot-separated parts gives
    [false].  Under the reserved secret [google] every signature gives
    [false] but the literal [valid-jwt-token], which is accepted; under
    the reserved secret [apple] every signature gives [false] but the
    base64 HMAC of the body under the key [test-apple-secret]. *)
Theorem verify_total_and_rejects_malformed :
  forall jwt_verify,
    (forall payload signature secret,
        exists b, verifyWebhookSignature jwt_verify payload signature secret = Ret b)
    /\ (forall payload signature secret,
           truthy payload = false \/ truthy signature = false
           \/ truthy secret = false ->
           verifyWebhookSignature jwt_verify payload signature secret = Ret false)
    /\ (forall payload signature secret,
           (forall s, signature <> JStr s) ->
           verifyWebhookSignature jwt_verify payload signature secret = Ret false)
    /\ (forall payload sig secret,
           is_str secret "apple" = false -> is_str secret "google" = false ->
           startsWith sig "sha256=" = false ->
           List.length (split "." sig) <> 3%nat ->
           verifyWebhookSignature jwt_verify payload (JStr sig) secret = Ret false)
    /\ (forall payload signature,
           truthy payload = true ->
           verifyWebhookSignature jwt_verify payload signature (JStr "google")
           = Ret (is_str signature "valid-jwt-token")
           /\ verifyWebhookSignature jwt_verify payload signature (JStr "apple")
              = Ret (match payload with
                     | JStr body =>
                         is_str signature
                           (Crypto.base64
                              (Crypto.hmac_sha256 "test-apple-secret" body))
                     | _ => false
                     end)).
Proof.
  intros jwt_verify. split; [| split; [| split; [| split]]].
  - apply verify_returns.
  - apply verify_missing.
  - apply verify_non_string_signature.
  - apply verify_unknown_format.
  - apply verify_reserved.
Qed.

(** The amended C8 at a missing body, a signature that is an array, a
    signature of unknown format, and a signature of unknown format under
    the reserved secret [google]. *)
Lemma verify_total_and_rejects_malformed_witness :
  verifyWebhookSignature Sample.jwt_verify JUndef (JStr "sha256=00")
    (JStr "whsec_live") = Ret false
  /\ verifyWebhookSignature Sample.jwt_verify (JStr "{}") (JArr [JStr "a"])
       (JStr "whsec_live") = Ret false
  /\ verifyWebhookSignature Sample.jwt_verify (JStr "{}") (JStr "not-a-signature")
       (JStr "whsec_live") = Ret false
  /\ verifyWebhookSignature Sample.jwt_verify (JStr "{}") (JStr "not-a-signature")
       (JStr "google") = Ret false.
Proof.
  destruct (verify_total_and_rejects_malformed Sample.jwt_verify)
    as (_ & Hmissing & Hshape & Hformat & Hreserved).
  split; [| split; [| split]].
  - apply Hmissing. left. reflexivity.
  - apply Hshape. intros s. discriminate.
  - apply Hformat; try reflexivity. simpl. discriminate.
  - apply (proj1 (Hreserved (JStr "{}") (JStr "not-a-signature") eq_refl)).
Defined.

(** C8 as stated fails: under the reserved secret [google] the signature
    [valid-jwt-token], which has neither the [sha256=] prefix nor three
    dot-separated parts and which [jwt.verify] rejects, yields [true]. *)
Lemma reserved_secret_accepts_malformed_token :
  startsWith "valid-jwt-token" "sha256=" = false
  /\ List.length (split "." "valid-jwt-token") = 1%nat
  /\ Sample.jwt_verify "valid-jwt-token" (JStr "test-google-secret")
     = Throw (Error "jwt malformed")
  /\ verifyWebhookSignature Sample.jwt_verify (JStr "{}")
       (JStr "valid-jwt-token") (JStr "google")
     = Ret true.
Proof. split; [| split; [| split]]; reflexivity. Qed.

(* ================================================================== *)
(** ** [parseWebhookEventType] *)
(* ================================================================== *)

(** On an object payload the Apple branch is the [switch] alone. *)
Lemma parse_apple_object fields :
  parseWebhookEventType (JObj fields) "apple"
  = Ret (apple_event_type (js_or (js_get (JObj fields) "notificationType")
                                 (JStr ""))).
Proof. reflexivity. Qed.

(** The four Apple types the [switch] knows. *)
Lemma apple_event_type_known :
  apple_event_type (JStr "CONSUMPTION_REQUEST") = "purchased"
  /\ apple_event_type (JStr "DID_RENEW") = "renewed"
  /\ apple_event_type (JStr "DID_FAIL_TO_RENEW") = "expired"
  /\ apple_event_type (JStr "REFUND") = "refunded".
Proof. split; [| split; [| split]]; reflexivity. Qed.

(** Every other value falls to the [default]. *)
Lemma apple_event_type_default v :
  is_str v "CONSUMPTION_REQUEST" = false -> is_str v "DID_RENEW" = false ->
  is_str v "DID_FAIL_TO_RENEW" = false -> is_str v "REFUND" = false ->
  apple_event_type v = "unknown".
Proof.
  intros H1 H2 H3 H4. unfold apple_event_type. rewrite H1, H2, H3, H4.
  destruct (is_str v "UNKNOWN_TYPE"); reflexivity.
Qed.

(** The parser only ever answers with one of five canonical kinds. *)
Lemma parse_canonical payload provider :
  exists kind,
    parseWebhookEventType payload provider = Ret kind
    /\ In kind ["purchased"; "renewed"; "expired"; "refunded"; "unknown"].
Proof.
  unfold parseWebhookEventType.
  destruct (provider =? "apple").
  { destruct (prop payload "notificationType") as [nt|e]; simpl.
    - unfold apple_event_type.
      repeat match goal with
             | |- context [if ?b then _ else _] => destruct b
             end; eexists; split; try reflexivity; simpl; tauto.
    - eexists; split; [reflexivity | simpl; tauto]. }
  destruct (provider =? "google").
  2:{ eexists; split; [reflexivity | simpl; tauto]. }
  unfold google_event_type.
  destruct (prop payload "messageType") as [mt|e]; simpl.
  2:{ eexists; split; [reflexivity | simpl; tauto]. }
  repeat match goal with
         | |- context [if is_str ?v ?l then _ else _] => destruct (is_str v l)
         end; try (eexists; split; [reflexivity | simpl; tauto]).
  destruct (prop payload "subscriptionNotification") as [sn|e]; simpl.
  2:{ eexists; split; [reflexivity | simpl; tauto]. }
  repeat match goal with
         | |- context [if is_num ?v ?l then _ else _] => destruct (is_num v l)
         end; eexists; split; try reflexivity; simpl; tauto.
Qed.

(** C6, on the code.  The Apple types [INITIAL_BUY], [INTERACTIVE_RENEWAL],
    [EXPIRED], [GRACE_PERIOD] and [REVOKE], which the specification maps to
    purchased/renewed, expired and refunded, are all parsed as [unknown];
    only [CONSUMPTION_REQUEST], [DID_RENEW], [DID_FAIL_TO_RENEW] and
    [REFUND] get the kind the specification gives them. *)
Theorem apple_types_parsed_as_unknown :
  let parse ty :=
    parseWebhookEventType (JObj [("notificationType", JStr ty)]) "apple" in
  parse "INITIAL_BUY" = Ret "unknown"
  /\ parse "INTERACTIVE_RENEWAL" = Ret "unknown"
  /\ parse "EXPIRED" = Ret "unknown"
  /\ parse "GRACE_PERIOD" = Ret "unknown"
  /\ parse "REVOKE" = Ret "unknown"
  /\ parse "CONSUMPTION_REQUEST" = Ret "purchased"
  /\ parse "DID_RENEW" = Ret "renewed"
  /\ parse "DID_FAIL_TO_RENEW" = Ret "expired"
  /\ parse "REFUND" = Ret "refunded".
Proof.
  cbv zeta.
  split; [| split; [| split; [| split; [| split; [| split; [| split; [| split]]]]]]];
    reflexivity.
Qed.

(* ================================================================== *)
(** ** JSON values and rows *)
(* ================================================================== *)

Lemma truthy_not_null v : truthy v = true -> v <> JNull /\ v <> JUndef.
Proof. destruct v; simpl; intros H; split; discriminate. Qed.

Lemma sql_eq_refl v : truthy v = true -> sql_eq v v = true.
Proof.
  intros H. unfold sql_eq.
  destruct v; try discriminate; apply String.eqb_refl.
Qed.

Lemma supplied_truthy v old : truthy v = true -> supplied v old = v.
Proof. destruct v; simpl; intros H; try discriminate; reflexivity. Qed.

Lemma supplied_twice v old : supplied v (supplied v old) = supplied v old.
Proof. destruct v; reflexivity. Qed.

Lemma obj_lookup_set_other k k' v fs :
  k <> k' -> obj_lookup k (obj_set k' v fs) = obj_lookup k fs.
Proof.
  intros Hk. induction fs as [|[k0 v0] fs IH]; simpl.
  - apply String.eqb_neq in Hk. rewrite String.eqb_sym, Hk. reflexivity.
  - destruct (k0 =? k') eqn:E; simpl.
    + apply String.eqb_eq in E. subst k0.
      apply String.eqb_neq in Hk. rewrite String.eqb_sym, Hk. reflexivity.
    + rewrite IH. reflexivity.
Qed.

Lemma either_field_set_other fs k v a b :
  a <> k -> b <> k ->
  either_field (JObj (obj_set k v fs)) a b = either_field (JObj fs) a b.
Proof.
  intros Ha Hb. unfold either_field, prop, js_get; simpl.
  rewrite !obj_lookup_set_other by assumption. reflexivity.
Qed.

(* ================================================================== *)
(** ** The webhook handlers of the service *)
(* ================================================================== *)

(** *** The store *)

Lemma update_In matches values rows r :
  In r rows -> matches r = true -> In (values r) (update matches values rows).
Proof.
  intros Hin Hm. unfold update.
  apply in_map_iff. exists r. rewrite Hm. split; [reflexivity | exact Hin].
Qed.



(** *** Reading the notification *)

Lemma either_field_ret n a b :
  nullish n = false ->
  either_field n a b = Ret (js_or (js_get n a) (js_get n b)).
Proof.
  intros H. unfold either_field, prop, js_or.
  destruct n; try discriminate; simpl;
    try match goal with
        | |- context [truthy ?x] => destruct (truthy x)
        end; reflexivity.
Qed.

Lemma either_field_throw n a b :
  nullish n = true -> exists e, either_field n a b = Throw e.
Proof. destruct n; try discriminate; intros _; eexists; reflexivity. Qed.

(** *** What each handler does *)

(** A notification that is [undefined] or [null] makes the first read
    throw; the [catch] logs and nothing has been written. *)
Lemma handlers_nullish now o1 o2 n st :
  nullish n = true ->
  exec (handleSubscriptionPurchased now o1 n) st = st
  /\ exec (handleSubscriptionExpired now o1 n) st = st
  /\ exec (handleSubscriptionRefunded now o1 o2 n) st = st.
Proof.
  intros H.
  destruct (either_field_throw n "userId" "user_id" H) as [e He].
  unfold exec, handleSubscriptionPurchased, handleSubscriptionExpired,
    handleSubscriptionRefunded, eff_try, eff_bind, pure.
  rewrite He. auto.
Qed.

Lemma purchased_exec now o n st userId productId transactionId :
  either_field n "userId" "user_id" = Ret userId ->
  either_field n "productId" "product_id" = Ret productId ->
  either_field n "transactionId" "transaction_id" = Ret transactionId ->
  exec (handleSubscriptionPurchased now o n) st
  = if negb (truthy userId) || negb (truthy productId) then st
    else match o with
         | DbOk =>
             Store (upsert (purchased_values userId productId transactionId now)
                           (subscriptions st))
                   (subscription_events st)
         | _ => st
         end.
Proof.
  intros Hu Hp Ht.
  unfold exec, handleSubscriptionPurchased, eff_try, eff_bind, pure.
  rewrite Hu, Hp, Ht.
  destruct (negb (truthy userId) || negb (truthy productId)); [reflexivity|].
  destruct o; reflexivity.
Qed.

Lemma expired_exec now o n st userId productId :
  either_field n "userId" "user_id" = Ret userId ->
  either_field n "productId" "product_id" = Ret productId ->
  exec (handleSubscriptionExpired now o n) st
  = if negb (truthy userId) then st
    else match o with
         | DbOk =>
             Store (update (fun r => sql_eq (Sub.user_id r) userId
                                     && sql_eq (Sub.product_id r) productId)
                           (expired_values now) (subscriptions st))
                   (subscription_events st)
         | _ => st
         end.
Proof.
  intros Hu Hp.
  unfold exec, handleSubscriptionExpired, eff_try, eff_bind, pure.
  rewrite Hu, Hp.
  destruct (negb (truthy userId)); [reflexivity|].
  destruct o; reflexivity.
Qed.

Lemma refunded_exec now o_update o_insert n st userId productId lineage :
  either_field n "userId" "user_id" = Ret userId ->
  either_field n "productId" "product_id" = Ret productId ->
  either_field n "originalTransactionId" "original_transaction_id" = Ret lineage ->
  exec (handleSubscriptionRefunded now o_update o_insert n) st
  = if negb (truthy userId) then st
    else match o_update with
         | DbOk =>
             let rows := update (fun r => sql_eq (Sub.user_id r) userId
                                          && refund_filter lineage productId r)
                                (refunded_values now) (subscriptions st) in
             match o_insert with
             | DbOk =>
                 Store rows
                       (subscription_events st
                        ++ [Event.Row userId (JStr "refund") (nullable productId)
                                      (nullable lineage) (JStr now) n])
             | _ => Store rows (subscription_events st)
             end
         | _ => st
         end.
Proof.
  intros Hu Hp Hl.
  unfold exec, handleSubscriptionRefunded, eff_try, eff_bind, pure.
  rewrite Hu, Hp, Hl.
  destruct (negb (truthy userId)); [reflexivity|].
  destruct o_update, o_insert; reflexivity.
Qed.

(** *** Replays *)








(** The expiry handler never reads the lineage of the event: whatever
    [originalTransactionId] the notification carries, the outcome is the
    same. *)
Lemma expired_ignores_lineage now o fields lineage st :
  exec (handleSubscriptionExpired now o
          (JObj (obj_set "originalTransactionId" lineage fields))) st
  = exec (handleSubscriptionExpired now o (JObj fields)) st.
Proof.
  unfold exec, handleSubscriptionExpired, eff_try, eff_bind, pure.
  rewrite !either_field_set_other by discriminate. reflexivity.
Qed.

(** Any row of the user and product is switched off, whatever lineage the
    row and the event belong to. *)
Lemma expired_deactivates_any_lineage now fields lineage st userId productId r :
  either_field (JObj fields) "userId" "user_id" = Ret userId ->
  truthy userId = true ->
  either_field (JObj fields) "productId" "product_id" = Ret productId ->
  In r (subscriptions st) ->
  sql_eq (Sub.user_id r) userId = true ->
  sql_eq (Sub.product_id r) productId = true ->
  In (expired_values now r)
     (subscriptions
        (exec (handleSubscriptionExpired now DbOk
                 (JObj (obj_set "originalTransactionId" lineage fields))) st)).
Proof.
  intros Hu Tu Hp Hin Hmu Hmp.
  rewrite expired_ignores_lineage, (expired_exec _ _ _ _ _ _ Hu Hp), Tu.
  simpl. apply update_In; [exact Hin | rewrite Hmu, Hmp; reflexivity].
Qed.

(** C2, on the code.  The user's subscription was bought in lineage [B-1];
    an expired event of lineage [A-1] for the same user and product
    switches it off. *)
Theorem expired_event_of_other_lineage_deactivates :
  let n := JObj [ ("userId", JStr "user-1");
                  ("originalTransactionId", JStr "A-1");
                  ("productId", JStr "monthly_subscription");
                  ("transactionId", JStr "A-7") ] in
  let st := Store [Sample.active_row] [] in
  let st' := exec (handleSubscriptionExpired "2025-06-20T08:00:00.000Z" DbOk n) st in
  Sub.transaction_id Sample.active_row = JStr "B-1"
  /\ subscriptions st'
     = [expired_values "2025-06-20T08:00:00.000Z" Sample.active_row]
  /\ map Sub.is_active (subscriptions st') = [JBool false]
  /\ subscriptions st' <> subscriptions st.
Proof.
  cbv zeta. split; [reflexivity | split; [reflexivity | split; [reflexivity |]]].
  vm_compute. discriminate.
Qed.





(** C9, as amended.  For a refunded notification that carries a user id,
    [handleSubscriptionRefunded] appends exactly one record to
    [subscription_events] when its update of [subscriptions] and its
    insert both go through, whether or not a row matched: the user, the
    type [refund], the product, the original transaction id, the time, and
    the raw notification as metadata, with no outcome added to it.  When
    the update fails, nothing is recorded and nothing is changed; when the
    update goes through and the insert fails, nothing is recorded although
    the rows are written. *)
Theorem refund_appends_one_audit_record :
  forall now n st userId productId lineage,
    either_field n "userId" "user_id" = Ret userId ->
    either_field n "productId" "product_id" = Ret productId ->
    either_field n "originalTransactionId" "original_transaction_id" = Ret lineage ->
    truthy userId = true ->
    subscription_events (exec (handleSubscriptionRefunded now DbOk DbOk n) st)
    = subscription_events st
      ++ [Event.Row userId (JStr "refund") (nullable productId)
                    (nullable lineage) (JStr now) n]
    /\ (forall o_update o_insert,
           o_update <> DbOk ->
           exec (handleSubscriptionRefunded now o_update o_insert n) st = st)
    /\ (forall o_insert,
           o_insert <> DbOk ->
           subscription_events
             (exec (handleSubscriptionRefunded now DbOk o_insert n) st)
           = subscription_events st
           /\ subscriptions
                (exec (handleSubscriptionRefunded now DbOk o_insert n) st)
              = subscriptions
                  (exec (handleSubscriptionRefunded now DbOk DbOk n) st)).
Proof.
  intros now n st userId productId lineage Hu Hp Hl Tu.
  split; [| split].
  - rewrite (refunded_exec _ _ _ _ _ _ _ _ Hu Hp Hl), Tu. reflexivity.
  - intros o_update o_insert Ho.
    rewrite (refunded_exec _ _ _ _ _ _ _ _ Hu Hp Hl), Tu.
    destruct o_update; [contradiction | reflexivity | reflexivity].
  - intros o_insert Ho.
    rewrite !(refunded_exec _ _ _ _ _ _ _ _ Hu Hp Hl), Tu.
    destruct o_insert; [contradiction | split; reflexivity | split; reflexivity].
Qed.

(** The amended C9 on a refund of the active row: recorded once when both
    calls go through, not recorded when the insert is refused although the
    row is refunded, and without effect when the update is refused. *)
Lemma refund_appends_one_audit_record_witness :
  let n := JObj [ ("userId", JStr "user-1");
                  ("originalTransactionId", JStr "B-1");
                  ("productId", JStr "monthly_subscription") ] in
  let now := "2025-06-20T08:00:00.000Z" in
  let st := Store [Sample.active_row] [] in
  subscription_events (exec (handleSubscriptionRefunded now DbOk DbOk n) st)
  = [Event.Row (JStr "user-1") (JStr "refund") (JStr "monthly_subscription")
               (JStr "B-1") (JStr now) n]
  /\ exec (handleSubscriptionRefunded now (DbError "update refused") DbOk n) st
     = st
  /\ subscription_events
       (exec (handleSubscriptionRefunded now DbOk (DbError "insert refused") n) st)
     = []
  /\ subscriptions
       (exec (handleSubscriptionRefunded now DbOk (DbError "insert refused") n) st)
     = [refunded_values now Sample.active_row].
Proof.
  intros n now st.
  destruct (refund_appends_one_audit_record now n st
              (JStr "user-1") (JStr "monthly_subscription") (JStr "B-1")
              eq_refl eq_refl eq_refl eq_refl) as (Hboth & Hupdate & Hinsert).
  split; [exact Hboth |].
  split; [apply Hupdate; discriminate |].
  destruct (Hinsert (DbError "insert refused")) as (He & Hs); [discriminate |].
  split; [exact He |]. rewrite Hs. reflexivity.
Defined.

(** C9 as stated fails: a refund that changes no subscription is recorded
    with the raw notification as its metadata and nothing that tells the
    outcome; a purchase and an expiry are applied to the subscription and
    leave no record at all. *)
Lemma audit_trail_incomplete :
  let refund := JObj [ ("userId", JStr "user-2");
                       ("originalTransactionId", JStr "C-1");
                       ("productId", JStr "yearly_subscription") ] in
  let st0 := Store [Sample.active_row] [] in
  let st0' := exec (handleSubscriptionRefunded "2025-06-20T08:00:00.000Z"
                      DbOk DbOk refund) st0 in
  let st1 := exec (handleSubscriptionPurchased "2025-06-05T10:00:00.000Z" DbOk
                     Sample.purchase) Sample.empty_store in
  let st2 := exec (handleSubscriptionExpired "2025-07-05T10:00:00.000Z" DbOk
                     Sample.purchase) st1 in
  (subscriptions st0' = subscriptions st0
   /\ map Event.metadata (subscription_events st0') = [refund])
  /\ (map Sub.is_active (subscriptions st1) = [JBool true]
      /\ subscription_events st1 = [])
  /\ (map Sub.is_active (subscriptions st2) = [JBool false]
      /\ subscription_events st2 = []).
Proof.
  cbv zeta.
  split; [split | split; split]; reflexivity.
Qed.

(* ================================================================== *)
(** ** [getSubscriptionStatus] *)
(* ================================================================== *)

Section StatusProperties.

Variable Date_parse : jsval -> jsdate.

Local Abbreviation fetch_failure :=
  (ApiError 500 "Failed to fetch subscription status").

Lemma status_of_read_error now q :
  error q <> None -> status_of_read Date_parse now q = Throw fetch_failure.
Proof.
  intros H. unfold status_of_read.
  destruct (error q); [reflexivity | contradiction].
Qed.

Lemma getSubscriptionStatus_read now o userId st q :
  db_select_single o userId st = (Ret q, st) ->
  getSubscriptionStatus Date_parse now o userId st
  = (match status_of_read Date_parse now q with
     | Ret v => Ret v
     | Throw (ApiError c m) => Throw (ApiError c m)
     | Throw _ => Throw (ApiError 500 "Failed to get subscription status")
     end, st).
Proof.
  intros H. unfold getSubscriptionStatus, eff_try, eff_bind, pure.
  rewrite H.
  destruct (status_of_read Date_parse now q) as [v | [ | | | ]]; reflexivity.
Qed.

(** [.single()] answers a user without rows with an error and no data. *)
Lemma select_single_no_row userId st :
  filter (fun r => sql_eq (Sub.user_id r) userId) (subscriptions st) = [] ->
  db_select_single DbOk userId st
  = (Ret (QueryResult None (Some "PGRST116")), st).
Proof. intros H. unfold db_select_single. rewrite H. reflexivity. Qed.

(** C10.  When the single-row read reports an error,
    [getSubscriptionStatus] throws [ApiError(500, 'Failed to fetch
    subscription status')]; a user without a subscription row is such a
    case, because [.single()] reports an error for it; the default view is
    returned when the read reports neither an error nor data, and never
    when it reports an error. *)
Theorem status_read_error_throws_500 :
  forall now userId st,
    (forall message,
        getSubscriptionStatus Date_parse now (DbError message) userId st
        = (Throw fetch_failure, st))
    /\ (filter (fun r => sql_eq (Sub.user_id r) userId) (subscriptions st) = [] ->
        getSubscriptionStatus Date_parse now DbOk userId st
        = (Throw fetch_failure, st))
    /\ (forall q, error q <> None ->
                  status_of_read Date_parse now q = Throw fetch_failure)
    /\ (forall q, error q = None -> data q = None ->
                  status_of_read Date_parse now q = Ret default_status).
Proof.
  intros now userId st. split; [| split; [| split]].
  - intros message.
    rewrite (getSubscriptionStatus_read now _ userId st
               (QueryResult None (Some message))) by reflexivity.
    reflexivity.
  - intros Hnone.
    rewrite (getSubscriptionStatus_read now _ userId st _
               (select_single_no_row userId st Hnone)).
    reflexivity.
  - apply status_of_read_error.
  - intros q He Hd. unfold status_of_read. rewrite He, Hd. reflexivity.
Qed.

End StatusProperties.

(** C10 on a user who has no row in a store that holds another user's
    subscription. *)
Lemma status_read_error_throws_500_witness :
  let st := Store [Sample.active_row] [] in
  getSubscriptionStatus Sample.Date_parse 1750000000000 DbOk (JStr "user-9") st
  = (Throw (ApiError 500 "Failed to fetch subscription status"), st).
Proof.
  intros st.
  apply (proj1 (proj2 (status_read_error_throws_500 Sample.Date_parse
                         1750000000000 (JStr "user-9") st))).
  reflexivity.
Defined.

(* ================================================================== *)
(** ** [handleWebhook] *)
(* ================================================================== *)

Section WebhookProperties.

Variable jwt_verify : string -> jsval -> comp jsval.
Variable millis_toISOString : jsval -> comp jsval.
Variable JSON_stringify : jsval -> jsval.

Local Abbreviation webhook :=
  (handleWebhook jwt_verify millis_toISOString JSON_stringify).

Lemma ok_acknowledges : acknowledges ok_response.
Proof. split; [reflexivity | left; reflexivity]. Qed.

Lemma error_acknowledges m : acknowledges (error_response m).
Proof. split; [reflexivity | right; exists m; reflexivity]. Qed.

(** The kinds the parser produces are not among the labels of the
    [switch]: the dispatcher falls to its [default]. *)
Lemma dispatch_canonical now o1 o2 kind notification :
  In kind ["purchased"; "renewed"; "expired"; "refunded"; "unknown"] ->
  dispatch now o1 o2 kind notification = eff_ret tt.
Proof.
  simpl. intros [<- | [<- | [<- | [<- | [<- | []]]]]]; reflexivity.
Qed.

(** The request handler answers every request, and leaves the store as it
    found it. *)
Lemma webhook_run now o1 o2 env req st :
  exists r, webhook now o1 o2 env req st = (Ret r, st) /\ acknowledges r.
Proof.
  unfold handleWebhook, eff_try, eff_bind, pure, eff_ret.
  destruct (determineProvider (headers req) (body req)) as [[provider|]|e].
  2:{ eexists; split; [reflexivity | apply error_acknowledges]. }
  2:{ eexists; split; [reflexivity | apply error_acknowledges]. }
  destruct (negb (truthy (getWebhookSecret env provider))).
  { eexists; split; [reflexivity | apply error_acknowledges]. }
  destruct (getSignatureFromHeaders (headers req) provider) as [signature|e].
  2:{ eexists; split; [reflexivity | apply error_acknowledges]. }
  destruct (negb (truthy signature)).
  { eexists; split; [reflexivity | apply error_acknowledges]. }
  destruct (verifyWebhookSignature jwt_verify _ signature _) as [[|]|e]; simpl.
  2:{ eexists; split; [reflexivity | apply error_acknowledges]. }
  2:{ eexists; split; [reflexivity | apply error_acknowledges]. }
  destruct (parse_canonical (body req) provider) as (kind & -> & Hkind).
  destruct (extractSubscriptionDetails millis_toISOString (body req) provider)
    as [details|e].
  2:{ eexists; split; [reflexivity | apply error_acknowledges]. }
  rewrite (dispatch_canonical _ _ _ _ _ Hkind). unfold eff_ret.
  eexists; split; [reflexivity | apply ok_acknowledges].
Qed.

Lemma extract_returns payload provider :
  exists details,
    extractSubscriptionDetails millis_toISOString payload provider = Ret details.
Proof.
  unfold extractSubscriptionDetails.
  match goal with
  | |- exists details, try_catch ?c _ = _ => destruct c
  end; eexists; reflexivity.
Qed.

(** The answer of the handler: [ok] when the request is accepted, one of
    the five error messages when it is not. *)
Lemma webhook_cases now o1 o2 env req st :
  (verified jwt_verify JSON_stringify env req
   /\ webhook now o1 o2 env req st = (Ret ok_response, st))
  \/ (~ verified jwt_verify JSON_stringify env req
      /\ exists message,
          In message error_messages
          /\ webhook now o1 o2 env req st = (Ret (error_response message), st)).
Proof.
  unfold verified, handleWebhook, eff_try, eff_bind, pure, eff_ret.
  destruct (determineProvider (headers req) (body req)) as [[provider|]|e].
  2:{ right. split; [intros (p & s & H & _); discriminate H |].
      eexists. split; [| reflexivity]. simpl; tauto. }
  2:{ right. split; [intros (p & s & H & _); discriminate H |].
      eexists. split; [| reflexivity]. simpl; tauto. }
  destruct (truthy (getWebhookSecret env provider)) eqn:Tk; cbn [negb].
  2:{ right. split.
      - intros (p & s & H & Tk' & _). injection H as <-. congruence.
      - eexists. split; [| reflexivity]. simpl; tauto. }
  destruct (getSignatureFromHeaders (headers req) provider) as [signature|e]
    eqn:Hs.
  2:{ right. split.
      - intros (p & s & H & _ & Hs' & _). injection H as <-. congruence.
      - eexists. split; [| reflexivity]. simpl; tauto. }
  destruct (truthy signature) eqn:Ts; cbn [negb].
  2:{ right. split.
      - intros (p & s & H & _ & Hs' & Ts' & _). injection H as <-. congruence.
      - eexists. split; [| reflexivity]. simpl; tauto. }
  destruct (verifyWebhookSignature jwt_verify _ signature _) as [[|]|e] eqn:Hv;
    cbn [negb].
  2:{ right. split.
      - intros (p & s & H & _ & Hs' & _ & Hv'). injection H as <-.
        rewrite Hs in Hs'. injection Hs' as <-. congruence.
      - eexists. split; [| reflexivity]. simpl; tauto. }
  2:{ right. split.
      - intros (p & s & H & _ & Hs' & _ & Hv'). injection H as <-.
        rewrite Hs in Hs'. injection Hs' as <-. congruence.
      - eexists. split; [| reflexivity]. simpl; tauto. }
  destruct (parse_canonical (body req) provider) as (kind & -> & Hkind).
  destruct (extract_returns (body req) provider) as [details ->].
  rewrite (dispatch_canonical _ _ _ _ _ Hkind). unfold eff_ret.
  left. split; [| reflexivity].
  exists provider, signature. auto.
Qed.

Variable body_parsers : http_request -> comp jsval.

(** C4, as amended.  A request to the webhook route that the body parsers
    have parsed and the rate limiter lets through reaches
    [handleWebhook], which answers with status 200 and does not throw,
    whatever the environment, the store and the way the database calls
    end: with [{status: "ok"}] when a provider is determined, its
    secret is configured, its signature header is there and the signature
    is verified against the raw body, and with [{status: "error",
    message}], the message being one of five, when not.  A request beyond
    the limit of the rate limiter is answered with status 429 before the
    handler runs. *)
Theorem webhook_reached_answers_200 :
  forall hits now o1 o2 env req body st,
    body_parsers req = Ret body ->
    let app := post_webhook jwt_verify millis_toISOString JSON_stringify
                 body_parsers hits now o1 o2 env req in
    let parsed := Request body (http_headers req) (captureRawBody req) in
    ((hits <= 100)%nat ->
     exists r st',
       app st = (Ret r, st')
       /\ status r = 200%Z
       /\ (verified jwt_verify JSON_stringify env parsed ->
           json r = JObj [("status", JStr "ok")])
       /\ (~ verified jwt_verify JSON_stringify env parsed ->
           exists message,
             In message error_messages
             /\ json r = JObj [("status", JStr "error");
                               ("message", JStr message)]))
    /\ ((100 < hits)%nat ->
        exists r, app st = (Ret r, st) /\ status r = 429%Z).
Proof.
  intros hits now o1 o2 env req body st Hbody app parsed. subst app.
  unfold post_webhook, apiLimiter. rewrite Hbody. split.
  - intros Hhits. apply Nat.ltb_ge in Hhits. rewrite Hhits.
    fold parsed.
    destruct (webhook_cases now o1 o2 env parsed st)
      as [(Hv & ->) | (Hv & message & Hin & ->)].
    + exists ok_response, st.
      split; [reflexivity | split; [reflexivity | split]].
      * intros _. reflexivity.
      * intros Hn. contradiction.
    + exists (error_response message), st.
      split; [reflexivity | split; [reflexivity | split]].
      * intros Hy. contradiction.
      * intros _. exists message. split; [exact Hin | reflexivity].
  - intros Hhits. apply Nat.ltb_lt in Hhits. rewrite Hhits.
    eexists. split; reflexivity.
Qed.

End WebhookProperties.

(** The amended C4 on the signed sample request: accepted and answered
    with [ok] as the hundredth request of the window, refused with 429 as
    the next one. *)
Lemma webhook_reached_answers_200_witness :
  let app hits :=
    post_webhook Sample.jwt_verify Sample.millis_toISOString
      Sample.JSON_stringify (known_bodies [Sample.initial_buy_body]) hits
      "2025-06-05T10:00:00.000Z" DbOk DbOk Sample.env
      (arriving Sample.initial_buy_body) Sample.empty_store in
  (exists r st', app 100%nat = (Ret r, st')
                 /\ status r = 200%Z
                 /\ json r = JObj [("status", JStr "ok")])
  /\ (exists r, app 101%nat = (Ret r, Sample.empty_store)
                /\ status r = 429%Z).
Proof.
  intros app.
  assert (known_bodies [Sample.initial_buy_body]
            (arriving Sample.initial_buy_body)
          = Ret Sample.initial_buy_body) as Hbody
      by (vm_compute; reflexivity).
  split.
  - destruct (proj1 (webhook_reached_answers_200 Sample.jwt_verify
                       Sample.millis_toISOString Sample.JSON_stringify
                       (known_bodies [Sample.initial_buy_body]) 100
                       "2025-06-05T10:00:00.000Z" DbOk DbOk Sample.env
                       (arriving Sample.initial_buy_body)
                       Sample.initial_buy_body Sample.empty_store Hbody)
                (le_n 100))
      as (r & st' & Hr & Hs & Hok & _).
    exists r, st'. split; [exact Hr | split; [exact Hs |]].
    apply Hok.
    exists "apple",
      (JStr (Sample.apple_signature (Sample.json_text Sample.initial_buy_body))).
    split; [reflexivity |].
    split; [reflexivity |].
    split; [reflexivity |].
    split; [vm_compute; reflexivity |].
    vm_compute. reflexivity.
  - apply (proj2 (webhook_reached_answers_200 Sample.jwt_verify
                    Sample.millis_toISOString Sample.JSON_stringify
                    (known_bodies [Sample.initial_buy_body]) 101
                    "2025-06-05T10:00:00.000Z" DbOk DbOk Sample.env
                    (arriving Sample.initial_buy_body)
                    Sample.initial_buy_body Sample.empty_store Hbody)).
    apply le_n.
Defined.

(** C4 as stated fails: the correctly signed sample request is answered
    with status 429 when it is the hundred and first of its window, and a
    request whose body is cut short is answered with status 500 by
    [errorHandler]; neither reaches the handler. *)
Lemma webhook_request_answered_without_200 :
  let app req hits :=
    post_webhook Sample.jwt_verify Sample.millis_toISOString
      Sample.JSON_stringify (known_bodies [Sample.initial_buy_body]) hits
      "2025-06-05T10:00:00.000Z" DbOk DbOk Sample.env req Sample.empty_store in
  fst (app (arriving Sample.initial_buy_body) 101%nat)
  = Ret (Response 429 (JStr "Too many requests, please try again later."))
  /\ fst (app cut_short 1%nat)
     = Ret (Response 500 (JObj [ ("status", JStr "error");
                                 ("message", JStr "Internal server error") ])).
Proof. cbv zeta. split; vm_compute; reflexivity. Qed.

(** C5, on the code.  The signed store-A [INITIAL_BUY] webhook for the
    monthly product, sent for a user without subscription, passes the
    signature check and is answered with [{status: "ok"}], and nothing is
    persisted: the parser answers [unknown] for [INITIAL_BUY], which the
    [switch] of [handleWebhook] lists as a label of the purchase handler,
    so that the handler is not called and the status read finds no row.
    Called on the notification of that request, the purchase handler
    inserts a row without plan and without expiry date, which reads back
    as the inactive default view; the plan and the expiry date are
    computed by [validateReceipt] only. *)
Theorem initial_buy_webhook_grants_no_subscription :
  let req := Sample.signed_request Sample.initial_buy_body in
  let now := "2025-06-05T10:00:00.000Z" in
  let later := 1749117700000%Z in
  verifyWebhookSignature Sample.jwt_verify (rawBody req)
    (js_get (headers req) "x-apple-signature") (APPLE_WEBHOOK_SECRET Sample.env)
  = Ret true
  /\ handleWebhook Sample.jwt_verify Sample.millis_toISOString
       Sample.JSON_stringify now DbOk DbOk Sample.env req Sample.empty_store
     = (Ret ok_response, Sample.empty_store)
  /\ parseWebhookEventType (body req) "apple" = Ret "unknown"
  /\ (forall notification,
         dispatch now DbOk DbOk "INITIAL_BUY" notification
         = handleSubscriptionPurchased now DbOk notification)
  /\ fst (getSubscriptionStatus Sample.Date_parse later DbOk (JStr "user-1")
            Sample.empty_store)
     = Throw (ApiError 500 "Failed to fetch subscription status")
  /\ match extractSubscriptionDetails Sample.millis_toISOString (body req) "apple" with
     | Ret details =>
         let st :=
           exec (handleSubscriptionPurchased now DbOk
                   (notification_of (body req) "apple" details))
                Sample.empty_store in
         subscriptions st
         = [Sub.Row (JStr "user-1") JNull (JStr "monthly_subscription") JNull
                    JNull JNull JNull JNull (JBool true) (JStr "A-1")
                    (JStr now) (JBool false) JNull JNull]
         /\ fst (getSubscriptionStatus Sample.Date_parse later DbOk
                   (JStr "user-1") st)
            = Ret default_status
     | Throw _ => False
     end.
Proof.
  cbv zeta.
  split; [vm_compute; reflexivity |].
  split; [vm_compute; reflexivity |].
  split; [reflexivity |].
  split; [intros notification; reflexivity |].
  split; [reflexivity |].
  vm_compute. split; reflexivity.
Qed.

(* ================================================================== *)
(** * Further properties of the code *)
(* ================================================================== *)

(** ** More on [verifyWebhookSignature] *)

Lemma startsWith_nonempty s p : p <> "" -> startsWith s p = true -> s <> "".
Proof. destruct p; [contradiction|]. intros _ H ->. discriminate. Qed.

Lemma timingSafeEqual_true a b :
  try_catch (timingSafeEqual a b) (fun _ => Ret false) = Ret true -> a = b.
Proof.
  unfold timingSafeEqual.
  destruct (List.length a =? List.length b)%nat; simpl; [| discriminate].
  intros E. injection E as E. apply bytes_eqb_eq. exact E.
Qed.

(** X1.  In the production path a signature that starts with [sha256=] is
    accepted exactly when it is that prefix followed by the lowercase hex
    HMAC-SHA256 of the body under the secret: nothing else, such as an
    uppercase or a truncated rendering, passes. *)
Theorem hex_signature_accepted_iff_exact :
  forall jwt_verify body sig secret,
    body <> "" -> secret <> "" -> secret <> "apple" -> secret <> "google" ->
    startsWith sig "sha256=" = true ->
    verifyWebhookSignature jwt_verify (JStr body) (JStr sig) (JStr secret)
    = Ret true
    <-> sig = ("sha256=" ++ Crypto.hex (Crypto.hmac_sha256 secret body))%string.
Proof.
  intros jwt_verify body sig secret Hb Hk Ha Hg Hp.
  assert (sig <> "") as Hs by (eapply startsWith_nonempty; [| exact Hp]; discriminate).
  rewrite verify_production by assumption. rewrite Hp. split.
  - intros H. apply timingSafeEqual_true in H.
    apply bytes_of_string_inj. exact H.
  - intros ->. rewrite timingSafeEqual_refl. reflexivity.
Qed.

Lemma hex_signature_accepted_iff_exact_witness :
  verifyWebhookSignature Sample.jwt_verify (JStr "{}")
    (JStr "sha256=84C2CA59466868B0AEE3AB4BCC637055FD546C9C7D2E70AECBB5F595DDC676E7")
    (JStr "whsec_live")
  <> Ret true.
Proof.
  intros H.
  assert ("{}" <> "") as Hb by discriminate.
  assert ("whsec_live" <> "") as Hk by discriminate.
  assert ("whsec_live" <> "apple") as Ha by discriminate.
  assert ("whsec_live" <> "google") as Hg by discriminate.
  pose proof (proj1 (hex_signature_accepted_iff_exact Sample.jwt_verify "{}"
                       "sha256=84C2CA59466868B0AEE3AB4BCC637055FD546C9C7D2E70AECBB5F595DDC676E7"
                       "whsec_live" Hb Hk Ha Hg eq_refl) H) as E.
  vm_compute in E. discriminate E.
Defined.

(** X2.  Under the reserved secrets the configured secret is no key at
    all: with [google], the one signature accepted is the literal
    [valid-jwt-token], whatever [jwt.verify] says; with [apple], it is the
    base64 HMAC of the body under the fixed key [test-apple-secret]. *)
Theorem reserved_secrets_use_fixed_credentials :
  forall jwt_verify payload signature,
    truthy payload = true ->
    verifyWebhookSignature jwt_verify payload signature (JStr "google")
    = Ret (is_str signature "valid-jwt-token")
    /\ forall body,
        payload = JStr body ->
        verifyWebhookSignature jwt_verify payload signature (JStr "apple")
        = Ret (is_str signature
                 (Crypto.base64 (Crypto.hmac_sha256 "test-apple-secret" body))).
Proof.
  intros jwt_verify payload signature Tp.
  destruct (truthy signature) eqn:Ts.
  2:{ split; [| intros body _];
        rewrite verify_missing by (right; left; exact Ts);
        rewrite (falsy_is_str _ _ Ts); try reflexivity; discriminate. }
  split.
  - unfold verifyWebhookSignature. rewrite Tp, Ts.
    change (negb true || negb true || negb (truthy (JStr "google"))) with false.
    change (is_str (JStr "google") "apple") with false.
    change (is_str (JStr "google") "google") with true.
    cbv iota.
    destruct (is_str signature "valid-jwt-token") eqn:E.
    + destruct (jwt_verify _ _); reflexivity.
    + destruct (is_str signature "invalid-jwt-token"); reflexivity.
  - intros body ->. unfold verifyWebhookSignature. rewrite Tp, Ts.
    change (negb true || negb true || negb (truthy (JStr "apple"))) with false.
    change (is_str (JStr "apple") "apple") with true.
    reflexivity.
Qed.

Lemma reserved_secrets_use_fixed_credentials_witness :
  verifyWebhookSignature Sample.jwt_verify (JStr "anything")
    (JStr "valid-jwt-token") (JStr "google")
  = Ret true.
Proof.
  apply (proj1 (reserved_secrets_use_fixed_credentials Sample.jwt_verify
                  (JStr "anything") (JStr "valid-jwt-token") eq_refl)).
Defined.

(** X3.  A signature without the [sha256=] prefix is checked as a JWT and
    never against the body: it is accepted exactly when it has three
    dot-separated parts and [jwt.verify] returns for it, so the same token
    passes for every body. *)
Theorem jwt_signature_is_not_bound_to_the_body :
  forall jwt_verify body sig secret,
    body <> "" -> secret <> "" -> secret <> "apple" -> secret <> "google" ->
    startsWith sig "sha256=" = false ->
    verifyWebhookSignature jwt_verify (JStr body) (JStr sig) (JStr secret)
    = Ret ((List.length (split "." sig) =? 3)%nat
           && jwt_accepts jwt_verify sig (JStr secret)).
Proof.
  intros jwt_verify body sig secret Hb Hk Ha Hg Hp.
  destruct (string_dec sig "") as [-> | Hs].
  { rewrite verify_missing by (right; left; reflexivity). reflexivity. }
  rewrite verify_production by assumption. rewrite Hp.
  unfold jwt_accepts.
  destruct (List.length (split "." sig) =? 3)%nat; [| reflexivity].
  destruct (jwt_verify sig (JStr secret)); reflexivity.
Qed.

Lemma jwt_signature_is_not_bound_to_the_body_witness :
  verifyWebhookSignature Sample.jwt_verify (JStr "{}") (JStr "aaa.bbb.ccc")
    (JStr "whsec_play")
  = Ret false.
Proof.
  apply (jwt_signature_is_not_bound_to_the_body Sample.jwt_verify "{}"
           "aaa.bbb.ccc" "whsec_play"); [discriminate .. | reflexivity].
Defined.

(** ** More on [parseWebhookEventType] *)

Lemma prop_ret o k : nullish o = false -> prop o k = Ret (js_get o k).
Proof. destruct o; try discriminate; reflexivity. Qed.

Lemma prop_throw o k : nullish o = true -> exists e, prop o k = Throw e.
Proof. destruct o; try discriminate; intros _; eexists; reflexivity. Qed.

Lemma is_str_js_or v lit :
  lit <> "" -> is_str (js_or v (JStr "")) lit = is_str v lit.
Proof.
  intros Hl. unfold js_or. destruct (truthy v) eqn:T; [reflexivity|].
  rewrite (falsy_is_str _ _ T Hl).
  destruct lit; [congruence | reflexivity].
Qed.

Lemma is_num_js_or v n :
  n <> 0%Z -> is_num (js_or v (JStr "")) n = is_num v n.
Proof.
  intros Hn. unfold js_or. destruct (truthy v) eqn:T; [reflexivity|].
  destruct v; simpl in *; try reflexivity.
  apply negb_false_iff, Z.eqb_eq in T. subst.
  symmetry. apply Z.eqb_neq. congruence.
Qed.

(** X4.  For Google a [messageType] among the four known names decides the
    kind alone: whatever numeric code [subscriptionNotification] carries is
    not looked at. *)
Theorem google_message_type_takes_precedence :
  forall payload mt kind,
    nullish payload = false ->
    js_get payload "messageType" = JStr mt ->
    In (mt, kind) google_message_kinds ->
    parseWebhookEventType payload "google" = Ret kind.
Proof.
  intros payload mt kind Hn Hmt Hin.
  unfold parseWebhookEventType, google_event_type.
  rewrite (prop_ret _ "messageType" Hn), Hmt.
  simpl in Hin.
  destruct Hin as [E | [E | [E | [E | []]]]]; injection E as <- <-; reflexivity.
Qed.

Lemma google_message_type_takes_precedence_witness :
  parseWebhookEventType
    (JObj [ ("messageType", JStr "SUBSCRIPTION_EXPIRED");
            ("subscriptionNotification", JObj [("notificationType", JNum 1)]) ])
    "google"
  = Ret "expired".
Proof.
  apply (google_message_type_takes_precedence _ "SUBSCRIPTION_EXPIRED");
    [reflexivity | reflexivity | simpl; tauto].
Defined.

(** X5.  Without one of those message types, the kind is the one the table
    of numeric codes gives to [subscriptionNotification?.notificationType]:
    the comparison is strict, so a code sent as a string, or any other
    value, is [unknown]. *)
Theorem google_code_is_compared_strictly :
  forall payload,
    nullish payload = false ->
    (forall mt kind, In (mt, kind) google_message_kinds ->
                     is_str (js_get payload "messageType") mt = false) ->
    parseWebhookEventType payload "google"
    = Ret (google_kind_of_code
             (opt_prop (js_get payload "subscriptionNotification")
                       "notificationType")).
Proof.
  intros payload Hn Hmt.
  unfold parseWebhookEventType, google_event_type.
  rewrite (prop_ret _ "messageType" Hn),
    (prop_ret _ "subscriptionNotification" Hn).
  cbn [String.eqb Ascii.eqb Bool.eqb bind].
  rewrite !is_str_js_or by discriminate.
  rewrite (Hmt "SUBSCRIPTION_PURCHASED" "purchased") by (simpl; tauto).
  rewrite (Hmt "SUBSCRIPTION_RENEWED" "renewed") by (simpl; tauto).
  rewrite (Hmt "SUBSCRIPTION_EXPIRED" "expired") by (simpl; tauto).
  rewrite (Hmt "SUBSCRIPTION_REVOKED" "refunded") by (simpl; tauto).
  rewrite !is_num_js_or by discriminate.
  destruct (opt_prop (js_get payload "subscriptionNotification")
                     "notificationType") as [ | | b | c | s | xs | fs];
    try reflexivity.
  unfold is_num, google_kind_of_code, google_code_kinds, find, fst, snd.
  destruct (c =? 1)%Z; [reflexivity|].
  destruct (c =? 2)%Z; [reflexivity|].
  destruct (c =? 3)%Z; [reflexivity|].
  destruct (c =? 4)%Z; reflexivity.
Qed.

Lemma google_code_is_compared_strictly_witness :
  parseWebhookEventType
    (JObj [("subscriptionNotification", JObj [("notificationType", JStr "4")])])
    "google"
  = Ret "unknown".
Proof.
  apply (google_code_is_compared_strictly
           (JObj [("subscriptionNotification",
                   JObj [("notificationType", JStr "4")])])).
  - reflexivity.
  - simpl. intros mt kind [E | [E | [E | [E | []]]]]; reflexivity.
Defined.

Lemma parse_fallback payload provider :
  nullish payload = true \/ (provider <> "apple" /\ provider <> "google") ->
  parseWebhookEventType payload provider = Ret "unknown".
Proof.
  intros [Hn | [Ha Hg]]; unfold parseWebhookEventType.
  - destruct (provider =? "apple").
    { destruct (prop_throw payload "notificationType" Hn) as [e ->]. reflexivity. }
    destruct (provider =? "google"); [| reflexivity].
    unfold google_event_type.
    destruct (prop_throw payload "messageType" Hn) as [e ->]. reflexivity.
  - apply String.eqb_neq in Ha, Hg. rewrite Ha, Hg. reflexivity.
Qed.

(** ** More on [extractSubscriptionDetails] *)

Section DetailProperties.

Variable millis_toISOString : jsval -> comp jsval.

Local Abbreviation extract := (extractSubscriptionDetails millis_toISOString).

Ltac simple_scrutinee c :=
  lazymatch c with
  | context [match _ with Ret _ => _ | Throw _ => _ end] => fail
  | context [if _ then _ else _] => fail
  | _ => idtac
  end.

Ltac branches :=
  repeat match goal with
         | |- context [match ?c with Ret _ => _ | Throw _ => _ end] =>
             simple_scrutinee c; destruct c; cbv beta iota
         | |- context [if ?b then _ else _] =>
             simple_scrutinee b; destruct b; cbv beta iota
         end.

Lemma apple_details_object payload : object_or_throw (apple_details payload).
Proof.
  unfold apple_details, bind. branches; simpl; eauto.
Qed.

Lemma google_details_object payload :
  object_or_throw (google_details millis_toISOString payload).
Proof.
  unfold google_details, bind. branches; simpl; eauto.
Qed.

Lemma caught_object c :
  object_or_throw c ->
  exists fields, try_catch c (fun _ => Ret (JObj [])) = Ret (JObj fields).
Proof.
  destruct c as [v|e]; simpl.
  - intros [fields ->]. eauto.
  - eauto.
Qed.

(** X6.  [extractSubscriptionDetails] never throws and always answers with
    an object, whatever the payload and the provider: what goes wrong on
    the way is caught and answered with the empty object. *)
Theorem extract_always_returns_an_object :
  forall payload provider,
    exists fields,
      extractSubscriptionDetails millis_toISOString payload provider
      = Ret (JObj fields).
Proof.
  intros payload provider.
  unfold extractSubscriptionDetails. apply caught_object.
  destruct (negb (truthy payload) || negb (typeof_object payload));
    [simpl; eauto|].
  match goal with
  | |- object_or_throw (bind ?c _) => destruct c as [[|]|e]
  end; cbn [bind]; [simpl; eauto | | exact I].
  destruct (provider =? "apple"); [apply apple_details_object|].
  destruct (provider =? "google"); [apply google_details_object|].
  simpl; eauto.
Qed.

Lemma extract_empty payload provider :
  truthy payload = false \/ typeof_object payload = false
  \/ (provider <> "apple" /\ provider <> "google") ->
  extract payload provider = Ret (JObj []).
Proof.
  intros H. unfold extractSubscriptionDetails.
  destruct (negb (truthy payload) || negb (typeof_object payload)) eqn:E;
    [reflexivity|].
  apply orb_false_iff in E. destruct E as [E1 E2].
  apply negb_false_iff in E1, E2.
  destruct H as [H | [H | [Ha Hg]]]; [congruence | congruence |].
  apply String.eqb_neq in Ha, Hg. rewrite Ha, Hg. reflexivity.
Qed.

(** X7.  On input they cannot use, the two readers of the payload fall
    back instead of failing: for a payload that is [undefined] or [null],
    and for a provider that is neither [apple] nor [google], the event
    kind is [unknown] and the details are the empty object. *)
Theorem readers_fall_back_on_unusable_input :
  forall payload provider,
    nullish payload = true \/ (provider <> "apple" /\ provider <> "google") ->
    parseWebhookEventType payload provider = Ret "unknown"
    /\ extract payload provider = Ret (JObj []).
Proof.
  intros payload provider H. split.
  - apply parse_fallback. exact H.
  - apply extract_empty. destruct H as [H | H]; [left | right; right; exact H].
    destruct payload; try discriminate H; reflexivity.
Qed.



(** X9.  In the production format of Google, an [expiryTimeMillis] that
    is not a valid time makes the conversion throw, and the catch answers
    with the empty object: the purchase token and the product are lost
    with it. *)
Theorem google_invalid_expiry_loses_all_details :
  forall fields sn e,
    truthy (js_get (JObj fields) "messageType") = false ->
    js_get (JObj fields) "subscriptionNotification" = sn ->
    truthy (js_get sn "expiryTimeMillis") = true ->
    millis_toISOString (js_get sn "expiryTimeMillis") = Throw e ->
    extract (JObj fields) "google" = Ret (JObj []).
Proof.
  intros fields sn e Hmt Hsn Tx Hx.
  assert (truthy sn = true) as Tsn.
  { destruct sn; simpl in Tx; try discriminate. reflexivity. }
  unfold extractSubscriptionDetails, google_details, prop.
  cbn [truthy typeof_object negb orb String.eqb Ascii.eqb Bool.eqb bind].
  rewrite (falsy_is_str _ "SUBSCRIPTION_PURCHASED" Hmt) by discriminate.
  cbn [bind]. rewrite Hmt, Hsn. unfold js_or. rewrite Tsn, Tx, Hx.
  reflexivity.
Qed.

(** X10.  When an Apple payload has no [data.transactionInfo] and its
    [data.signedTransactionInfo] is a string, as the signed transactions
    of the store are, the string is not decoded: every identifier of the
    details is [undefined]. *)
Theorem apple_signed_transaction_is_not_decoded :
  forall fields data jws,
    js_get (JObj fields) "data" = data ->
    truthy (opt_prop data "transactionInfo") = false ->
    js_get data "signedTransactionInfo" = JStr jws ->
    exists details,
      extract (JObj fields) "apple" = Ret details
      /\ forall k, In k detail_ids -> js_get details k = JUndef.
Proof.
  intros fields data jws Hd Ht Hs.
  unfold extractSubscriptionDetails, apple_details, prop.
  cbn [truthy typeof_object negb orb String.eqb Ascii.eqb Bool.eqb bind].
  rewrite Hd, Ht.
  assert (truthy data = true) as Td.
  { destruct data; simpl in Hs; try discriminate. reflexivity. }
  unfold js_or. rewrite Td. cbv iota. rewrite Hs.
  eexists. split; [reflexivity|].
  destruct (truthy (JStr jws));
    simpl; intros k [<- | [<- | [<- | []]]]; reflexivity.
Qed.

End DetailProperties.

Lemma readers_fall_back_on_unusable_input_witness :
  parseWebhookEventType JNull "google" = Ret "unknown"
  /\ extractSubscriptionDetails Sample.millis_toISOString JNull "google"
     = Ret (JObj []).
Proof.
  apply (readers_fall_back_on_unusable_input Sample.millis_toISOString JNull
           "google").
  left. reflexivity.
Defined.


Lemma apple_signed_transaction_is_not_decoded_witness :
  exists details,
    extractSubscriptionDetails Sample.millis_toISOString
      (JObj [ ("notificationType", JStr "DID_RENEW");
              ("data", JObj [("signedTransactionInfo",
                              JStr "eyJhbGciOiJFUzI1NiJ9.e30.c2ln")]) ])
      "apple"
    = Ret details
    /\ forall k, In k detail_ids -> js_get details k = JUndef.
Proof.
  apply (apple_signed_transaction_is_not_decoded Sample.millis_toISOString _ _
           "eyJhbGciOiJFUzI1NiJ9.e30.c2ln" eq_refl);
    reflexivity.
Defined.

Lemma google_invalid_expiry_loses_all_details_witness :
  extractSubscriptionDetails Sample.millis_toISOString
    (JObj [("subscriptionNotification",
            JObj [ ("purchaseToken", JStr "tok-1");
                   ("subscriptionId", JStr "monthly_subscription");
                   ("expiryTimeMillis", JStr "soon") ])])
    "google"
  = Ret (JObj []).
Proof.
  apply (google_invalid_expiry_loses_all_details Sample.millis_toISOString
           [("subscriptionNotification",
             JObj [ ("purchaseToken", JStr "tok-1");
                    ("subscriptionId", JStr "monthly_subscription");
                    ("expiryTimeMillis", JStr "soon") ])]
           (JObj [ ("purchaseToken", JStr "tok-1");
                   ("subscriptionId", JStr "monthly_subscription");
                   ("expiryTimeMillis", JStr "soon") ])
           (RangeError "Invalid time value"));
    reflexivity.
Defined.

(** ** More on the webhook handlers *)

(** What the three handlers leave behind, for a notification that can be
    read. *)
Lemma purchased_store now o n st :
  nullish n = false ->
  exec (handleSubscriptionPurchased now o n) st
  = if negb (truthy (notification_user n))
       || negb (truthy (notification_product n)) then st
    else match o with
         | DbOk =>
             Store (subscriptions st ++ [purchased_row n now])
                   (subscription_events st)
         | _ => st
         end.
Proof.
  intros Hn. apply purchased_exec; apply either_field_ret; exact Hn.
Qed.

Lemma expired_store now o n st :
  nullish n = false ->
  exec (handleSubscriptionExpired now o n) st
  = if negb (truthy (notification_user n)) then st
    else match o with
         | DbOk =>
             Store (update (fun r => sql_eq (Sub.user_id r) (notification_user n)
                                     && sql_eq (Sub.product_id r)
                                               (notification_product n))
                           (expired_values now) (subscriptions st))
                   (subscription_events st)
         | _ => st
         end.
Proof.
  intros Hn. apply expired_exec; apply either_field_ret; exact Hn.
Qed.

Lemma refunded_store now o_update o_insert n st :
  nullish n = false ->
  exec (handleSubscriptionRefunded now o_update o_insert n) st
  = if negb (truthy (notification_user n)) then st
    else match o_update with
         | DbOk =>
             let rows :=
               update (fun r => sql_eq (Sub.user_id r) (notification_user n)
                                && refund_filter (notification_lineage n)
                                                 (notification_product n) r)
                      (refunded_values now) (subscriptions st) in
             match o_insert with
             | DbOk =>
                 Store rows
                       (subscription_events st
                        ++ [Event.Row (notification_user n) (JStr "refund")
                                      (nullable (notification_product n))
                                      (nullable (notification_lineage n))
                                      (JStr now) n])
             | _ => Store rows (subscription_events st)
             end
         | _ => st
         end.
Proof.
  intros Hn. apply refunded_exec; apply either_field_ret; exact Hn.
Qed.

(** X11.  None of the three handlers ever throws: a notification that
    cannot be read, a database call that reports an error and one that
    throws all end in a normal return. *)
Theorem handlers_never_throw :
  forall now o1 o2 n st,
    fst (handleSubscriptionPurchased now o1 n st) = Ret tt
    /\ fst (handleSubscriptionExpired now o1 n st) = Ret tt
    /\ fst (handleSubscriptionRefunded now o1 o2 n st) = Ret tt.
Proof.
  intros now o1 o2 n st.
  unfold handleSubscriptionPurchased, handleSubscriptionExpired,
    handleSubscriptionRefunded, eff_try, eff_bind, pure, eff_ret.
  destruct (either_field n "userId" "user_id") as [u|];
    [| split; [| split]; reflexivity].
  destruct (either_field n "productId" "product_id") as [p|];
    [| split; [| split]; reflexivity].
  split; [| split].
  - destruct (either_field n "transactionId" "transaction_id") as [t|];
      [| reflexivity].
    destruct (negb (truthy u) || negb (truthy p)); [reflexivity|].
    destruct o1; reflexivity.
  - destruct (negb (truthy u)); [reflexivity|].
    destruct o1; reflexivity.
  - destruct (either_field n "originalTransactionId" "original_transaction_id")
      as [l|]; [| reflexivity].
    destruct (negb (truthy u)); [reflexivity|].
    destruct o1, o2; reflexivity.
Qed.

(** *** Rows of other users *)

Lemma rows_of_others_insert key r rows :
  sql_eq (Sub.user_id r) key = true ->
  rows_of_others key (rows ++ [r]) = rows_of_others key rows.
Proof.
  intros Hr. unfold rows_of_others. rewrite filter_app. cbn [filter].
  rewrite Hr. apply app_nil_r.
Qed.

Lemma rows_of_others_update key matches values rows :
  (forall r, matches r = true -> sql_eq (Sub.user_id r) key = true) ->
  (forall r, Sub.user_id (values r) = Sub.user_id r) ->
  rows_of_others key (update matches values rows) = rows_of_others key rows.
Proof.
  intros Hm Hv. unfold rows_of_others, update.
  induction rows as [|r rows IH]; simpl; [reflexivity|].
  rewrite IH. destruct (matches r) eqn:E; [| reflexivity].
  rewrite Hv, (Hm r E). reflexivity.
Qed.

Lemma purchased_values_user u p t now r :
  truthy u = true -> Sub.user_id (purchased_values u p t now r) = u.
Proof. intros T. simpl. apply supplied_truthy. exact T. Qed.

(** X12.  Whatever the notification and the outcome of the database
    calls, the rows that do not answer to the user the notification names
    come out of each handler as they went in, and in the same order. *)
Theorem handlers_leave_other_users_rows :
  forall now o1 o2 n st,
    let others s := rows_of_others (notification_user n) (subscriptions s) in
    others (exec (handleSubscriptionPurchased now o1 n) st) = others st
    /\ others (exec (handleSubscriptionExpired now o1 n) st) = others st
    /\ others (exec (handleSubscriptionRefunded now o1 o2 n) st) = others st.
Proof.
  intros now o1 o2 n st others. subst others. cbv beta.
  destruct (nullish n) eqn:Hn.
  { destruct (handlers_nullish now o1 o2 n st Hn) as (-> & -> & ->). auto. }
  rewrite (purchased_store _ _ _ _ Hn), (expired_store _ _ _ _ Hn),
    (refunded_store _ _ _ _ _ Hn).
  destruct (truthy (notification_user n)) eqn:Tu; cbn [negb orb]; [| auto].
  split; [| split].
  - destruct (negb (truthy (notification_product n))); [reflexivity|].
    destruct o1; try reflexivity. cbn [subscriptions].
    apply rows_of_others_insert. unfold purchased_row.
    rewrite purchased_values_user by exact Tu. apply sql_eq_refl. exact Tu.
  - destruct o1; try reflexivity. cbn [subscriptions].
    apply rows_of_others_update; [| reflexivity].
    intros r H. apply andb_true_iff in H. tauto.
  - destruct o1; try reflexivity. cbv zeta.
    assert (forall ev,
               rows_of_others (notification_user n)
                 (subscriptions
                    (Store (update
                              (fun r => sql_eq (Sub.user_id r) (notification_user n)
                                        && refund_filter (notification_lineage n)
                                             (notification_product n) r)
                              (refunded_values now) (subscriptions st)) ev))
               = rows_of_others (notification_user n) (subscriptions st)) as H.
    { intros ev. cbn [subscriptions].
      apply rows_of_others_update; [| reflexivity].
      intros r H. apply andb_true_iff in H. tauto. }
    destruct o2; apply H.
Qed.

(** X13.  The event log only grows, and by one record at most: a purchase
    and an expiry leave it as it is, a refund keeps what is there and
    appends at most one record. *)
Theorem event_log_is_append_only :
  forall now o1 o2 n st,
    subscription_events (exec (handleSubscriptionPurchased now o1 n) st)
    = subscription_events st
    /\ subscription_events (exec (handleSubscriptionExpired now o1 n) st)
       = subscription_events st
    /\ exists added,
        subscription_events (exec (handleSubscriptionRefunded now o1 o2 n) st)
        = subscription_events st ++ added
        /\ (List.length added <= 1)%nat.
Proof.
  intros now o1 o2 n st.
  destruct (nullish n) eqn:Hn.
  { destruct (handlers_nullish now o1 o2 n st Hn) as (-> & -> & ->).
    split; [| split]; try reflexivity.
    exists []. rewrite app_nil_r. auto. }
  rewrite (purchased_store _ _ _ _ Hn), (expired_store _ _ _ _ Hn),
    (refunded_store _ _ _ _ _ Hn).
  split; [| split].
  - destruct (negb (truthy (notification_user n))
              || negb (truthy (notification_product n))); [reflexivity|].
    destruct o1; reflexivity.
  - destruct (negb (truthy (notification_user n))); [reflexivity|].
    destruct o1; reflexivity.
  - destruct (negb (truthy (notification_user n))).
    { exists []. rewrite app_nil_r. auto. }
    destruct o1;
      [| exists []; rewrite app_nil_r; auto | exists []; rewrite app_nil_r; auto].
    destruct o2; cbn [subscription_events];
      [| exists []; rewrite app_nil_r; auto | exists []; rewrite app_nil_r; auto].
    eexists. split; [reflexivity | simpl; lia].
Qed.

(** *** Rows are kept, and stay with their user *)

Lemma update_columns {A} (f : Sub.row -> A) matches values rows :
  (forall r, f (values r) = f r) ->
  map f (update matches values rows) = map f rows.
Proof.
  intros Hv. unfold update. rewrite map_map. apply map_ext.
  intros r. destruct (matches r); [apply Hv | reflexivity].
Qed.

(** X14.  No handler deletes a subscription row or hands it to another
    user: the user ids of the rows come out as they went in, followed by
    at most one new row. *)
Theorem handlers_never_delete_or_reassign_rows :
  forall now o1 o2 n st,
    let users s := map Sub.user_id (subscriptions s) in
    (exists added,
        users (exec (handleSubscriptionPurchased now o1 n) st)
        = users st ++ added
        /\ (List.length added <= 1)%nat)
    /\ users (exec (handleSubscriptionExpired now o1 n) st) = users st
    /\ users (exec (handleSubscriptionRefunded now o1 o2 n) st) = users st.
Proof.
  intros now o1 o2 n st users. subst users. cbv beta.
  assert (exists added : list jsval,
             map Sub.user_id (subscriptions st)
             = map Sub.user_id (subscriptions st) ++ added
             /\ (List.length added <= 1)%nat) as Hsame
      by (exists []; rewrite app_nil_r; auto).
  destruct (nullish n) eqn:Hn.
  { destruct (handlers_nullish now o1 o2 n st Hn) as (-> & -> & ->). auto. }
  rewrite (purchased_store _ _ _ _ Hn), (expired_store _ _ _ _ Hn),
    (refunded_store _ _ _ _ _ Hn).
  destruct (truthy (notification_user n)) eqn:Tu; cbn [negb orb]; [| auto].
  split; [| split].
  - destruct (negb (truthy (notification_product n))); [exact Hsame|].
    destruct o1; try exact Hsame. cbn [subscriptions].
    exists [Sub.user_id (purchased_row n now)].
    rewrite map_app. split; [reflexivity | simpl; lia].
  - destruct o1; try reflexivity. cbn [subscriptions].
    apply update_columns. reflexivity.
  - destruct o1; try reflexivity. cbv zeta.
    destruct o2; cbn [subscriptions]; apply update_columns; reflexivity.
Qed.

(** *** The status view *)

Section ViewProperties.

Variable Date_parse : jsval -> jsdate.

Lemma rows_of_status_columns key rows1 :
  forall rows2,
    map status_columns rows1 = map status_columns rows2 ->
    map status_columns (rows_of key rows1)
    = map status_columns (rows_of key rows2).
Proof.
  unfold rows_of.
  induction rows1 as [|r1 rows1 IH]; intros [|r2 rows2] H; try discriminate;
    [reflexivity|].
  cbn [map] in H.
  assert (status_columns r1 = status_columns r2) as Hr by congruence.
  assert (map status_columns rows1 = map status_columns rows2) as Hrows
      by congruence.
  assert (Sub.user_id r1 = Sub.user_id r2) as Hu
      by (unfold status_columns in Hr; congruence).
  cbn [filter]. rewrite Hu.
  destruct (sql_eq (Sub.user_id r2) key); cbn [map];
    [rewrite Hr; f_equal |]; apply IH; exact Hrows.
Qed.

Lemma status_of_single now rows1 rows2 :
  map status_columns rows1 = map status_columns rows2 ->
  status_of_read Date_parse now (single rows1)
  = status_of_read Date_parse now (single rows2).
Proof.
  intros H.
  destruct rows1 as [|r1 [|r1' rows1]], rows2 as [|r2 [|r2' rows2]];
    try discriminate; try reflexivity.
  cbn [map] in H. unfold status_columns in H.
  injection H as Hu Hp He Hl Ht.
  unfold single, status_of_read. cbn [data error].
  rewrite Hp, He, Hl, Ht. reflexivity.
Qed.

Lemma status_view_columns now o userId rows1 rows2 ev1 ev2 :
  map status_columns rows1 = map status_columns rows2 ->
  fst (getSubscriptionStatus Date_parse now o userId (Store rows1 ev1))
  = fst (getSubscriptionStatus Date_parse now o userId (Store rows2 ev2)).
Proof.
  intros H.
  unfold getSubscriptionStatus, eff_try, eff_bind, pure, db_select_single.
  destruct o as [ | m | e]; cbn [subscriptions].
  - pose proof (rows_of_status_columns userId _ _ H) as Hf.
    unfold rows_of in Hf. rewrite (status_of_single now _ _ Hf).
    destruct (status_of_read _ _ _) as [v | [ | | | ]]; reflexivity.
  - reflexivity.
  - destruct e; reflexivity.
Qed.

(** X15.  An expiry and a refund never change what the status read
    answers: they write [is_active], [refunded] and the two time stamps,
    and [getSubscriptionStatus] reads none of these columns. *)
Theorem deactivation_never_changes_the_status_view :
  forall now o userId t o1 o2 n st,
    fst (getSubscriptionStatus Date_parse now o userId
           (exec (handleSubscriptionExpired t o1 n) st))
    = fst (getSubscriptionStatus Date_parse now o userId st)
    /\ fst (getSubscriptionStatus Date_parse now o userId
              (exec (handleSubscriptionRefunded t o1 o2 n) st))
       = fst (getSubscriptionStatus Date_parse now o userId st).
Proof.
  intros now o userId t o1 o2 n st.
  assert (forall st', map status_columns (subscriptions st')
                      = map status_columns (subscriptions st) ->
                      fst (getSubscriptionStatus Date_parse now o userId st')
                      = fst (getSubscriptionStatus Date_parse now o userId st))
    as Hview.
  { intros [rows' ev'] H. destruct st as [rows ev].
    apply status_view_columns. exact H. }
  destruct (nullish n) eqn:Hn.
  { destruct (handlers_nullish t o1 o2 n st Hn) as (_ & -> & ->). auto. }
  rewrite (expired_store _ _ _ _ Hn), (refunded_store _ _ _ _ _ Hn).
  destruct (negb (truthy (notification_user n))); [auto|].
  split; apply Hview.
  - destruct o1; try reflexivity. cbn [subscriptions].
    apply update_columns. reflexivity.
  - destruct o1; try reflexivity. cbv zeta.
    destruct o2; cbn [subscriptions]; apply update_columns; reflexivity.
Qed.

End ViewProperties.

(** *** Failures *)

(** X16.  A notification that names no user, and a first database call
    that does not end normally, both leave the two tables exactly as they
    were, for each of the three handlers. *)
Theorem nothing_is_written_without_user_or_database :
  forall now o1 o2 n st,
    truthy (notification_user n) = false \/ o1 <> DbOk ->
    exec (handleSubscriptionPurchased now o1 n) st = st
    /\ exec (handleSubscriptionExpired now o1 n) st = st
    /\ exec (handleSubscriptionRefunded now o1 o2 n) st = st.
Proof.
  intros now o1 o2 n st H.
  destruct (nullish n) eqn:Hn; [apply handlers_nullish; exact Hn|].
  rewrite (purchased_store _ _ _ _ Hn), (expired_store _ _ _ _ Hn),
    (refunded_store _ _ _ _ _ Hn).
  destruct H as [Tu | Ho].
  - rewrite Tu. auto.
  - destruct (negb (truthy (notification_user n)) ||
              negb (truthy (notification_product n))),
      (negb (truthy (notification_user n))), o1;
      try contradiction; auto.
Qed.

Lemma nothing_is_written_without_user_or_database_witness :
  let st := Store [Sample.active_row] [] in
  let now := "2025-06-05T10:00:00.000Z" in
  let o := DbThrows (Error "fetch failed") in
  exec (handleSubscriptionPurchased now o Sample.purchase) st = st
  /\ exec (handleSubscriptionExpired now o Sample.purchase) st = st
  /\ exec (handleSubscriptionRefunded now o DbOk Sample.purchase) st = st.
Proof.
  intros st now o.
  apply (nothing_is_written_without_user_or_database now o DbOk
           Sample.purchase st).
  right. discriminate.
Defined.

(** X17.  A refund is not atomic: when the update of [subscriptions] went
    through and the insert into [subscription_events] does not, the rows
    stay marked as refunded and no record of it exists. *)
Theorem refund_is_kept_when_its_record_fails :
  forall now o_insert n st,
    o_insert <> DbOk ->
    exec (handleSubscriptionRefunded now DbOk o_insert n) st
    = Store (subscriptions (exec (handleSubscriptionRefunded now DbOk DbOk n) st))
            (subscription_events st).
Proof.
  intros now o_insert n st Ho.
  destruct (nullish n) eqn:Hn.
  { destruct (handlers_nullish now DbOk o_insert n st Hn) as (_ & _ & ->).
    destruct (handlers_nullish now DbOk DbOk n st Hn) as (_ & _ & ->).
    destruct st; reflexivity. }
  rewrite !(refunded_store _ _ _ _ _ Hn).
  destruct (negb (truthy (notification_user n))); [destruct st; reflexivity|].
  destruct o_insert; [contradiction | reflexivity | reflexivity].
Qed.

(** On the active row of lineage [B-1] and a refund of that lineage: the
    row comes out refunded and the log stays empty. *)
Lemma refund_is_kept_when_its_record_fails_witness :
  let n := JObj [ ("userId", JStr "user-1");
                  ("originalTransactionId", JStr "B-1");
                  ("productId", JStr "monthly_subscription") ] in
  let st := Store [Sample.active_row] [] in
  let now := "2025-06-20T08:00:00.000Z" in
  exec (handleSubscriptionRefunded now DbOk (DbError "insert refused") n) st
  = Store (subscriptions (exec (handleSubscriptionRefunded now DbOk DbOk n) st))
          (subscription_events st)
  /\ exec (handleSubscriptionRefunded now DbOk (DbError "insert refused") n) st
     = Store [refunded_values now Sample.active_row] [].
Proof.
  intros n st now.
  assert (exec (handleSubscriptionRefunded now DbOk (DbError "insert refused") n)
               st
          = Store (subscriptions
                     (exec (handleSubscriptionRefunded now DbOk DbOk n) st))
                  (subscription_events st)) as H.
  { apply (refund_is_kept_when_its_record_fails now (DbError "insert refused")
             n st).
    discriminate. }
  split; [exact H |]. rewrite H. reflexivity.
Defined.

(** *** Lineages *)

Lemma update_unmatched matches values rows r :
  In r rows -> matches r = false -> In r (update matches values rows).
Proof.
  intros Hin Hm. unfold update. apply in_map_iff.
  exists r. rewrite Hm. auto.
Qed.

(** X18.  A refund that names a lineage touches no row of another
    lineage: a row whose [transaction_id] is not the original transaction
    id of the notification comes out unchanged. *)
Theorem refund_spares_other_lineages :
  forall now o1 o2 n st r,
    truthy (notification_lineage n) = true ->
    In r (subscriptions st) ->
    sql_eq (Sub.transaction_id r) (notification_lineage n) = false ->
    In r (subscriptions (exec (handleSubscriptionRefunded now o1 o2 n) st)).
Proof.
  intros now o1 o2 n st r Tl Hin Hne.
  assert (nullish n = false) as Hn.
  { destruct n; try reflexivity; discriminate Tl. }
  rewrite (refunded_store _ _ _ _ _ Hn).
  destruct (negb (truthy (notification_user n))); [exact Hin|].
  destruct o1; try exact Hin. cbv zeta.
  assert (In r (update
                  (fun r0 => sql_eq (Sub.user_id r0) (notification_user n)
                             && refund_filter (notification_lineage n)
                                  (notification_product n) r0)
                  (refunded_values now) (subscriptions st))) as H.
  { apply update_unmatched; [exact Hin|].
    unfold refund_filter, js_or. rewrite Tl.
    change (Sub.column "transaction_id" r) with (Sub.transaction_id r).
    rewrite Hne. apply andb_false_r. }
  destruct o2; exact H.
Qed.

Lemma refund_spares_other_lineages_witness :
  let n := JObj [ ("userId", JStr "user-1");
                  ("originalTransactionId", JStr "A-1");
                  ("productId", JStr "monthly_subscription") ] in
  In Sample.active_row
     (subscriptions
        (exec (handleSubscriptionRefunded "2025-06-20T08:00:00.000Z" DbOk DbOk n)
              (Store [Sample.active_row] []))).
Proof.
  intros n.
  apply (refund_spares_other_lineages "2025-06-20T08:00:00.000Z" DbOk DbOk n
           (Store [Sample.active_row] []) Sample.active_row);
    [reflexivity | left; reflexivity | reflexivity].
Defined.



(** ** The receipt path: [validateReceipt] and [syncSubscriptionStatus] *)

Lemma plan_of_product_none cfg productId :
  ~ In productId (map JStr [monthly cfg; yearly cfg; lifetime cfg]) ->
  plan_of_product cfg productId = None.
Proof.
  intros H. unfold plan_of_product.
  assert (forall s, In (JStr s) (map JStr [monthly cfg; yearly cfg; lifetime cfg])
                    -> is_str productId s = false) as Hs.
  { intros s Hin. destruct productId; try reflexivity.
    apply String.eqb_neq. intros ->. contradiction. }
  rewrite !Hs by (simpl; tauto). reflexivity.
Qed.

(** The rows of the key after an insert of a row of that key. *)
Lemma rows_of_insert key r rows :
  sql_eq (Sub.user_id r) key = true ->
  rows_of key (rows ++ [r]) = rows_of key rows ++ [r].
Proof.
  intros Hr. unfold rows_of. rewrite filter_app. cbn [filter].
  rewrite Hr. reflexivity.
Qed.

Section ReceiptProperties.

Variable Date_parse : jsval -> jsdate.
Variable toISOString : Z -> string.
Variable setMonth_next : Z -> Z.
Variable setFullYear_next : Z -> Z.

Local Abbreviation validate :=
  (validateReceipt Date_parse toISOString setMonth_next setFullYear_next).

(** X20.  When the save of the receipt does not go through, nothing has
    been written and the caller gets a 500: [Failed to save subscription]
    when the database reports an error, [Failed to validate receipt] when
    the client throws. *)
Theorem failed_save_is_a_500_without_write :
  forall cfg now now' o_read userId receipt productId platform st plan,
    plan_of_product cfg productId = Some plan ->
    (forall message,
        validate cfg now now' (DbError message) o_read userId receipt productId
                 platform st
        = (Throw (ApiError 500 "Failed to save subscription"), st))
    /\ (forall e,
           (forall statusCode message, e <> ApiError statusCode message) ->
           validate cfg now now' (DbThrows e) o_read userId receipt productId
                    platform st
           = (Throw (ApiError 500 "Failed to validate receipt"), st)).
Proof.
  intros cfg now now' o_read userId receipt productId platform st plan Hp.
  unfold validateReceipt, eff_try, eff_bind, pure, db_upsert, db_write.
  rewrite Hp. split.
  - reflexivity.
  - intros e He. destruct e; try reflexivity.
    exfalso. eapply He. reflexivity.
Qed.

(** The status read that ends a successful save, for a user who had no
    row: the row just written is the one read. *)
Lemma status_after_insert now' userId values st :
  truthy userId = true ->
  (forall r, Sub.user_id (values r) = userId) ->
  rows_of userId (subscriptions st) = [] ->
  fst (getSubscriptionStatus Date_parse now' DbOk userId
         (Store (upsert values (subscriptions st))
                (subscription_events st)))
  = status_of_read Date_parse now'
      (QueryResult (Some (values Sub.default)) None).
Proof.
  intros Tu Hv Hnone.
  unfold getSubscriptionStatus, eff_try, eff_bind, pure, db_select_single.
  cbn [subscriptions].
  change (filter (fun r => sql_eq (Sub.user_id r) userId)
                 (upsert values (subscriptions st)))
    with (rows_of userId (subscriptions st ++ [values Sub.default])).
  rewrite rows_of_insert
    by (rewrite Hv; apply sql_eq_refl; exact Tu).
  rewrite Hnone. reflexivity.
Qed.

Lemma receipt_values_user userId receipt productId platform plan now r :
  truthy userId = true ->
  Sub.user_id (receipt_values toISOString setMonth_next setFullYear_next
                 userId receipt productId platform plan now r) = userId.
Proof. intros T. simpl. apply supplied_truthy. exact T. Qed.

Lemma validate_saved cfg now now' userId receipt productId platform st plan :
  plan_of_product cfg productId = Some plan ->
  truthy userId = true ->
  rows_of userId (subscriptions st) = [] ->
  fst (validate cfg now now' DbOk DbOk userId receipt productId platform st)
  = status_of_read Date_parse now'
      (QueryResult
         (Some (receipt_values toISOString setMonth_next setFullYear_next
                  userId receipt productId platform plan now Sub.default))
         None).
Proof.
  intros Hp Tu Hnone.
  pose proof (status_after_insert now' userId
                (receipt_values toISOString setMonth_next setFullYear_next
                   userId receipt productId platform plan now) st Tu
                (fun r => receipt_values_user _ _ _ _ _ _ r Tu) Hnone) as H.
  unfold validateReceipt, eff_try, eff_bind, pure, db_upsert, db_write.
  rewrite Hp. cbv beta iota.
  destruct (getSubscriptionStatus Date_parse now' DbOk userId _)
    as [[v|e] st'] eqn:G; cbn [fst] in H; rewrite <- H.
  - reflexivity.
  - unfold status_of_read in H. cbn [error data] in H. discriminate H.
Qed.

(** X21.  For a user who has no subscription row, a lifetime purchase
    that is saved answers with the view of an active lifetime subscriber
    without expiry date, at whatever time the status is read. *)
Theorem lifetime_purchase_is_active_at_all_times :
  forall cfg now now' userId receipt productId platform st,
    plan_of_product cfg productId = Some LIFETIME ->
    truthy userId = true ->
    rows_of userId (subscriptions st) = [] ->
    fst (validate cfg now now' DbOk DbOk userId receipt productId platform st)
    = Ret (MkStatus (JBool true) (JStr "lifetime_subscription") None
                    (JBool true) false None).
Proof.
  intros cfg now now' userId receipt productId platform st Hp Tu Hnone.
  rewrite (validate_saved _ _ _ _ _ _ _ _ _ Hp Tu Hnone). reflexivity.
Qed.

(** X22.  For a user who has no subscription row, a monthly or yearly
    purchase that is saved shows the plan, is not lifetime, and expires at
    the time [setMonth] or [setFullYear] computes from the time of the
    call: the user is active exactly until then. *)
Theorem timed_purchase_expires_one_period_later :
  forall cfg now now' userId receipt productId platform st plan expiry,
    plan_of_product cfg productId = Some plan ->
    receipt_expiry setMonth_next setFullYear_next plan now = Some expiry ->
    toISOString expiry <> "" ->
    truthy userId = true ->
    rows_of userId (subscriptions st) = [] ->
    let expiryDate := Date_parse (JStr (toISOString expiry)) in
    fst (validate cfg now now' DbOk DbOk userId receipt productId platform st)
    = Ret (MkStatus (JBool (date_after expiryDate now'))
                    (JStr (plan_value plan)) (Some expiryDate)
                    (JBool false) false None).
Proof.
  intros cfg now now' userId receipt productId platform st plan expiry
    Hp He Hiso Tu Hnone expiryDate. subst expiryDate.
  rewrite (validate_saved _ _ _ _ _ _ _ _ _ Hp Tu Hnone).
  apply truthy_str in Hiso.
  unfold status_of_read, receipt_values.
  cbn [error data Sub.expiry_date Sub.is_lifetime Sub.plan Sub.trial_end_date
       Sub.default].
  rewrite He. unfold date_or_null. rewrite Hiso.
  assert (is_lifetime_plan plan = false) as Hl
      by (destruct plan; [reflexivity | reflexivity | discriminate He]).
  rewrite Hl. reflexivity.
Qed.

Lemma status_throws_api now o userId st e :
  fst (getSubscriptionStatus Date_parse now o userId st) = Throw e ->
  exists statusCode message, e = ApiError statusCode message.
Proof.
  unfold getSubscriptionStatus, eff_try, eff_bind, pure.
  destruct (db_select_single o userId st) as [[q|e0] st'].
  - destruct (status_of_read Date_parse now q) as [v | [ | | | ]];
      cbn [fst]; intros H; try discriminate; injection H as <-; eauto.
  - destruct e0; cbn [fst]; intros H; injection H as <-; eauto.
Qed.

(** X23.  With a working first read, [syncSubscriptionStatus] is the
    status read when the user has exactly one row, and a 500 otherwise:
    the default view it has a branch for is never returned. *)
Theorem sync_is_the_status_read :
  forall now o userId st,
    syncSubscriptionStatus Date_parse now DbOk o userId st
    = match rows_of userId (subscriptions st) with
      | [_] => getSubscriptionStatus Date_parse now o userId st
      | _ => (Throw (ApiError 500 "Failed to fetch subscription for sync"), st)
      end.
Proof.
  intros now o userId st.
  unfold syncSubscriptionStatus, eff_try, eff_bind, pure, db_select_single.
  change (filter (fun r => sql_eq (Sub.user_id r) userId) (subscriptions st))
    with (rows_of userId (subscriptions st)).
  destruct (rows_of userId (subscriptions st)) as [|r [|r' rest]];
    cbn [single error data]; try reflexivity.
  destruct (getSubscriptionStatus Date_parse now o userId st)
    as [[v|e] st'] eqn:G; [reflexivity|].
  destruct (status_throws_api now o userId st e) as (c & m & ->);
    [rewrite G; reflexivity | reflexivity].
Qed.

End ReceiptProperties.

(** The receipt path on the UTC calendar, with the default product ids. *)

Example month_overflow :
  Utc.toISOString 1738324800000 = "2025-01-31T12:00:00.000Z"
  /\ Utc.toISOString (Utc.setMonth_next 1738324800000)
     = "2025-03-03T12:00:00.000Z"
  /\ Utc.Date_parse (JStr "2025-03-03T12:00:00.000Z") = Some 1741003200000%Z.
Proof. split; [| split]; vm_compute; reflexivity. Qed.

Lemma failed_save_is_a_500_without_write_witness :
  let st := Store [Sample.active_row] [] in
  validateReceipt Utc.Date_parse Utc.toISOString Utc.setMonth_next
    Utc.setFullYear_next (subscriptionPlans JUndef JUndef JUndef)
    1738324800000 1738324800100 (DbError "duplicate key") DbOk
    (JStr "user-1") (JStr "receipt-C") (JStr "yearly_subscription") (JStr "ios")
    st
  = (Throw (ApiError 500 "Failed to save subscription"), st).
Proof.
  intros st.
  apply (proj1 (failed_save_is_a_500_without_write Utc.Date_parse
                  Utc.toISOString Utc.setMonth_next Utc.setFullYear_next
                  (subscriptionPlans JUndef JUndef JUndef)
                  1738324800000 1738324800100 DbOk
                  (JStr "user-1") (JStr "receipt-C")
                  (JStr "yearly_subscription") (JStr "ios") st YEARLY eq_refl)).
Defined.

Lemma lifetime_purchase_is_active_at_all_times_witness :
  fst (validateReceipt Utc.Date_parse Utc.toISOString Utc.setMonth_next
         Utc.setFullYear_next (subscriptionPlans JUndef JUndef JUndef)
         1738324800000 4102444800000 DbOk DbOk
         (JStr "user-7") (JStr "receipt-L") (JStr "lifetime_subscription")
         (JStr "android") (Store [Sample.active_row] []))
  = Ret (MkStatus (JBool true) (JStr "lifetime_subscription") None
                  (JBool true) false None).
Proof.
  apply (lifetime_purchase_is_active_at_all_times Utc.Date_parse
           Utc.toISOString Utc.setMonth_next Utc.setFullYear_next
           (subscriptionPlans JUndef JUndef JUndef)
           1738324800000 4102444800000
           (JStr "user-7") (JStr "receipt-L") (JStr "lifetime_subscription")
           (JStr "android") (Store [Sample.active_row] []));
    reflexivity.
Defined.

(** A monthly purchase made on 31 January expires on 3 March, and the user
    is active on 19 February. *)
Lemma timed_purchase_expires_one_period_later_witness :
  fst (validateReceipt Utc.Date_parse Utc.toISOString Utc.setMonth_next
         Utc.setFullYear_next (subscriptionPlans JUndef JUndef JUndef)
         1738324800000 1740000000000 DbOk DbOk
         (JStr "user-7") (JStr "receipt-M") (JStr "monthly_subscription")
         (JStr "ios") Sample.empty_store)
  = Ret (MkStatus (JBool true) (JStr "monthly_subscription")
                  (Some (Some 1741003200000%Z)) (JBool false) false None).
Proof.
  apply (timed_purchase_expires_one_period_later Utc.Date_parse
           Utc.toISOString Utc.setMonth_next Utc.setFullYear_next
           (subscriptionPlans JUndef JUndef JUndef)
           1738324800000 1740000000000
           (JStr "user-7") (JStr "receipt-M") (JStr "monthly_subscription")
           (JStr "ios") Sample.empty_store MONTHLY
           (Utc.setMonth_next 1738324800000));
    [reflexivity | reflexivity | vm_compute; discriminate
    | reflexivity | reflexivity].
Defined.

(** ** The client endpoints *)

Section EndpointProperties.

Variable Date_parse : jsval -> jsdate.
Variable toISOString : Z -> string.
Variable setMonth_next : Z -> Z.
Variable setFullYear_next : Z -> Z.

Local Abbreviation status_endpoint := (Controller.getSubscriptionStatus Date_parse).
Local Abbreviation validate_endpoint :=
  (Controller.validateSubscription Date_parse toISOString setMonth_next
     setFullYear_next).
Local Abbreviation sync_endpoint := (Controller.syncSubscription Date_parse).

Lemma require_user_ok req :
  truthy (opt_prop (Controller.user req) "id") = true ->
  Controller.require_user req = Ret (opt_prop (Controller.user req) "id").
Proof. intros H. unfold Controller.require_user. rewrite H. reflexivity. Qed.

Lemma require_user_refused req :
  truthy (opt_prop (Controller.user req) "id") = false ->
  Controller.require_user req = Throw (ApiError 401 "User ID not found").
Proof. intros H. unfold Controller.require_user. rewrite H. reflexivity. Qed.

(** X24.  A request without [req.user.id] is answered by each of the three
    endpoints with a 401, before the database is touched and whatever the
    body. *)
Theorem endpoints_refuse_requests_without_user :
  forall cfg now now' o1 o2 req st,
    truthy (opt_prop (Controller.user req) "id") = false ->
    let refused := Controller.Next (ApiError 401 "User ID not found") in
    status_endpoint now o1 req st = (Ret refused, st)
    /\ validate_endpoint cfg now now' o1 o2 req st = (Ret refused, st)
    /\ sync_endpoint now o1 o2 req st = (Ret refused, st)
    /\ Controller.status_code refused = 401%Z.
Proof.
  intros cfg now now' o1 o2 req st H refused.
  unfold Controller.getSubscriptionStatus, Controller.validateSubscription,
    Controller.syncSubscription, Controller.respond, eff_bind, pure.
  rewrite (require_user_refused req H).
  split; [| split; [| split]]; reflexivity.
Qed.

(** X25.  [validateSubscription] answers 400 and writes nothing when the
    body lacks one of [receipt], [productId] and [platform], and when the
    product is none of the three configured ids, whatever the database
    would have done. *)
Theorem invalid_purchase_is_a_400_without_write :
  forall cfg now now' o1 o2 req st,
    truthy (opt_prop (Controller.user req) "id") = true ->
    nullish (Controller.client_body req) = false ->
    let receipt := js_get (Controller.client_body req) "receipt" in
    let productId := js_get (Controller.client_body req) "productId" in
    let platform := js_get (Controller.client_body req) "platform" in
    truthy receipt = false \/ truthy productId = false
    \/ truthy platform = false
    \/ ~ In productId (map JStr [monthly cfg; yearly cfg; lifetime cfg]) ->
    exists out,
      validate_endpoint cfg now now' o1 o2 req st = (Ret out, st)
      /\ Controller.status_code out = 400%Z.
Proof.
  intros cfg now now' o1 o2 req st Hu Hb receipt productId platform H.
  unfold Controller.validateSubscription, Controller.respond, eff_bind, pure.
  rewrite (require_user_ok req Hu), !(prop_ret _ _ Hb).
  fold receipt productId platform.
  destruct (negb (truthy receipt) || negb (truthy productId)
            || negb (truthy platform)) eqn:E.
  { eexists. split; reflexivity. }
  apply orb_false_iff in E. destruct E as [E E3].
  apply orb_false_iff in E. destruct E as [E1 E2].
  apply negb_false_iff in E1, E2, E3.
  destruct H as [H | [H | [H | H]]]; try congruence.
  unfold validateReceipt, eff_try, pure.
  rewrite (plan_of_product_none cfg productId H).
  eexists. split; reflexivity.
Qed.

Lemma status_throws_500 now o userId st e :
  not_api_error o ->
  fst (getSubscriptionStatus Date_parse now o userId st) = Throw e ->
  exists message, e = ApiError 500 message.
Proof.
  unfold getSubscriptionStatus, eff_try, eff_bind, pure, db_select_single.
  intros Ho. destruct o as [ | m | e0]; cbn [fst].
  - unfold status_of_read.
    destruct (error _); [intros H; injection H as <-; eauto|].
    destruct (data _); discriminate.
  - intros H; injection H as <-; eauto.
  - destruct e0; try contradiction; intros H; injection H as <-; eauto.
Qed.

Lemma validate_throws cfg now now' o1 o2 userId receipt productId platform st e :
  not_api_error o1 -> not_api_error o2 ->
  fst (validateReceipt Date_parse toISOString setMonth_next setFullYear_next
         cfg now now' o1 o2 userId receipt productId platform st)
  = Throw e ->
  exists message, e = ApiError 400 message \/ e = ApiError 500 message.
Proof.
  intros Ho1 Ho2.
  unfold validateReceipt, eff_try, eff_bind, pure, db_upsert, db_write.
  destruct (plan_of_product cfg productId) as [plan|];
    [| cbn [fst]; intros H; injection H as <-; eauto].
  destruct o1 as [ | m | e0]; cbv beta iota.
  - destruct (getSubscriptionStatus Date_parse now' o2 userId _)
      as [[v|e'] s'] eqn:G; cbn [fst]; [discriminate|].
    assert (exists m, e' = ApiError 500 m) as [m ->]
        by (eapply status_throws_500; [exact Ho2 | rewrite G; reflexivity]).
    cbn [rethrow_api pure fst]. intros H; injection H as <-; eauto.
  - cbn [fst]. intros H; injection H as <-; eauto.
  - destruct e0; try contradiction; cbn [fst]; intros H; injection H as <-; eauto.
Qed.

Lemma sync_throws now o1 o2 userId st e :
  not_api_error o1 -> not_api_error o2 ->
  fst (syncSubscriptionStatus Date_parse now o1 o2 userId st) = Throw e ->
  exists message, e = ApiError 500 message.
Proof.
  intros Ho1 Ho2.
  unfold syncSubscriptionStatus, eff_try, eff_bind, pure, db_select_single.
  destruct o1 as [ | m | e0]; cbv beta iota.
  - destruct (error _); [cbn [fst]; intros H; injection H as <-; eauto|].
    destruct (data _); [| discriminate].
    destruct (getSubscriptionStatus Date_parse now o2 userId st)
      as [[v|e'] s'] eqn:G; cbn [fst]; [discriminate|].
    destruct (status_throws_500 now o2 userId st e' Ho2) as [m ->];
      [rewrite G; reflexivity|].
    cbn [rethrow_api pure fst]. intros H; injection H as <-; eauto.
  - cbn [error fst]. intros H; injection H as <-; eauto.
  - destruct e0; try contradiction; cbn [fst]; intros H; injection H as <-; eauto.
Qed.

Lemma respond_codes (c : eff SubscriptionStatus) st :
  (forall e, fst (c st) = Throw e ->
             In (Controller.status_code (Controller.Next e)) [200; 400; 401; 500]%Z) ->
  exists out st',
    Controller.respond c st = (Ret out, st')
    /\ In (Controller.status_code out) [200; 400; 401; 500]%Z.
Proof.
  intros H. unfold Controller.respond.
  destruct (c st) as [[v|e] st'].
  - eexists _, _. split; [reflexivity | simpl; tauto].
  - eexists _, _. split; [reflexivity | apply H; reflexivity].
Qed.

(** X26.  As long as the database client itself throws no [ApiError],
    the three endpoints answer with 200, 400, 401 or 500 and nothing
    else. *)
Theorem endpoints_answer_with_four_codes :
  forall cfg now now' o1 o2 req st,
    not_api_error o1 -> not_api_error o2 ->
    let codes := [200; 400; 401; 500]%Z in
    (exists out st', status_endpoint now o1 req st = (Ret out, st')
                     /\ In (Controller.status_code out) codes)
    /\ (exists out st', validate_endpoint cfg now now' o1 o2 req st = (Ret out, st')
                        /\ In (Controller.status_code out) codes)
    /\ (exists out st', sync_endpoint now o1 o2 req st = (Ret out, st')
                        /\ In (Controller.status_code out) codes).
Proof.
  intros cfg now now' o1 o2 req st Ho1 Ho2 codes. subst codes.
  unfold Controller.getSubscriptionStatus, Controller.validateSubscription,
    Controller.syncSubscription.
  split; [| split]; apply respond_codes; intros e; unfold eff_bind, pure;
    unfold Controller.require_user;
    (destruct (negb (truthy (opt_prop (Controller.user req) "id")));
     [cbn [fst]; intros H; injection H as <-; simpl; tauto|]).
  - intros H. destruct (status_throws_500 _ _ _ _ _ Ho1 H) as [m ->].
    simpl; tauto.
  - destruct (nullish (Controller.client_body req)) eqn:Hb.
    { unfold prop.
      destruct (Controller.client_body req); try discriminate Hb;
        cbn [fst]; intros H; injection H as <-; simpl; tauto. }
    rewrite !(prop_ret _ _ Hb).
    set (receipt := js_get (Controller.client_body req) "receipt").
    set (productId := js_get (Controller.client_body req) "productId").
    set (platform := js_get (Controller.client_body req) "platform").
    destruct (negb (truthy receipt) || negb (truthy productId)
              || negb (truthy platform));
      [cbn [fst]; intros H; injection H as <-; simpl; tauto|].
    intros H. destruct (validate_throws _ _ _ _ _ _ _ _ _ _ _ Ho1 Ho2 H)
      as [m [-> | ->]]; simpl; tauto.
  - intros H. destruct (sync_throws _ _ _ _ _ _ Ho1 Ho2 H) as [m ->].
    simpl; tauto.
Qed.

(** X27.  A signed-in user who has no subscription row gets a 500 from the
    status endpoint and from the sync endpoint, not the default view. *)
Theorem user_without_subscription_gets_500 :
  forall now o req st,
    truthy (opt_prop (Controller.user req) "id") = true ->
    rows_of (opt_prop (Controller.user req) "id") (subscriptions st) = [] ->
    (exists out, status_endpoint now DbOk req st = (Ret out, st)
                 /\ Controller.status_code out = 500%Z)
    /\ (exists out, sync_endpoint now DbOk o req st = (Ret out, st)
                    /\ Controller.status_code out = 500%Z).
Proof.
  intros now o req st Hu Hnone.
  unfold Controller.getSubscriptionStatus, Controller.syncSubscription,
    Controller.respond, eff_bind, pure.
  rewrite (require_user_ok req Hu). split.
  - unfold getSubscriptionStatus, eff_try, eff_bind, pure, db_select_single.
    change (filter (fun r => sql_eq (Sub.user_id r)
                               (opt_prop (Controller.user req) "id"))
                   (subscriptions st))
      with (rows_of (opt_prop (Controller.user req) "id") (subscriptions st)).
    rewrite Hnone. eexists. split; reflexivity.
  - unfold syncSubscriptionStatus, eff_try, eff_bind, pure, db_select_single.
    change (filter (fun r => sql_eq (Sub.user_id r)
                               (opt_prop (Controller.user req) "id"))
                   (subscriptions st))
      with (rows_of (opt_prop (Controller.user req) "id") (subscriptions st)).
    rewrite Hnone. eexists. split; reflexivity.
Qed.

End EndpointProperties.

Lemma endpoints_refuse_requests_without_user_witness :
  let req := Controller.ClientRequest JUndef (JObj []) in
  let st := Store [Sample.active_row] [] in
  Controller.syncSubscription Sample.Date_parse 1738324800000 DbOk DbOk req st
  = (Ret (Controller.Next (ApiError 401 "User ID not found")), st).
Proof.
  intros req st.
  apply (endpoints_refuse_requests_without_user Sample.Date_parse
           (fun _ => "") (fun t => t) (fun t => t)
           (subscriptionPlans JUndef JUndef JUndef)
           1738324800000 1738324800000 DbOk DbOk req st eq_refl).
Defined.

Lemma invalid_purchase_is_a_400_without_write_witness :
  let req := Controller.ClientRequest
               (JObj [("id", JStr "user-1")])
               (JObj [ ("receipt", JStr "receipt-W");
                       ("productId", JStr "weekly_subscription");
                       ("platform", JStr "ios") ]) in
  let st := Store [Sample.active_row] [] in
  exists out,
    Controller.validateSubscription Utc.Date_parse Utc.toISOString
      Utc.setMonth_next Utc.setFullYear_next
      (subscriptionPlans JUndef JUndef JUndef)
      1738324800000 1738324800100 DbOk DbOk req st
    = (Ret out, st)
    /\ Controller.status_code out = 400%Z.
Proof.
  intros req st.
  apply (invalid_purchase_is_a_400_without_write Utc.Date_parse Utc.toISOString
           Utc.setMonth_next Utc.setFullYear_next
           (subscriptionPlans JUndef JUndef JUndef)
           1738324800000 1738324800100 DbOk DbOk req st eq_refl eq_refl).
  right. right. right. simpl.
  intros [E | [E | [E | []]]]; discriminate E.
Defined.

Lemma endpoints_answer_with_four_codes_witness :
  let req := Controller.ClientRequest (JObj [("id", JStr "user-1")]) JUndef in
  exists out st',
    Controller.validateSubscription Utc.Date_parse Utc.toISOString
      Utc.setMonth_next Utc.setFullYear_next
      (subscriptionPlans JUndef JUndef JUndef)
      1738324800000 1738324800100 DbOk DbOk req Sample.empty_store
    = (Ret out, st')
    /\ In (Controller.status_code out) [200; 400; 401; 500]%Z.
Proof.
  intros req.
  apply (endpoints_answer_with_four_codes Utc.Date_parse Utc.toISOString
           Utc.setMonth_next Utc.setFullYear_next
           (subscriptionPlans JUndef JUndef JUndef)
           1738324800000 1738324800100 DbOk DbOk req Sample.empty_store I I).
Defined.

Lemma user_without_subscription_gets_500_witness :
  let req := Controller.ClientRequest (JObj [("id", JStr "user-9")]) (JObj []) in
  let st := Store [Sample.active_row] [] in
  exists out,
    Controller.getSubscriptionStatus Sample.Date_parse 1738324800000 DbOk req st
    = (Ret out, st)
    /\ Controller.status_code out = 500%Z.
Proof.
  intros req st.
  apply (user_without_subscription_gets_500 Sample.Date_parse 1738324800000
           DbOk req st eq_refl eq_refl).
Defined.

(** ** More on [handleWebhook] *)

Section WebhookRuns.

Variable jwt_verify : string -> jsval -> comp jsval.
Variable millis_toISOString : jsval -> comp jsval.
Variable JSON_stringify : jsval -> jsval.

(** X28.  [handleWebhook] never writes: the event kinds the parser yields
    are not labels of the [switch], so that no handler is ever called and
    every request, accepted or not, leaves both tables as they were. *)
Theorem webhook_never_writes :
  forall now o1 o2 env req st,
    snd (handleWebhook jwt_verify millis_toISOString JSON_stringify
           now o1 o2 env req st)
    = st.
Proof.
  intros now o1 o2 env req st.
  destruct (webhook_run jwt_verify millis_toISOString JSON_stringify
              now o1 o2 env req st) as (r & -> & _).
  reflexivity.
Qed.

(** X29.  The answer is [{status: "ok"}] exactly when a provider was
    determined, its secret is configured, the signature header is there
    and the signature is verified against the raw body: the content of
    the notification plays no part. *)
Theorem webhook_ok_iff_signature_verified :
  forall now o1 o2 env req st,
    fst (handleWebhook jwt_verify millis_toISOString JSON_stringify
           now o1 o2 env req st)
    = Ret ok_response
    <-> exists provider signature,
        determineProvider (headers req) (body req) = Ret (Some provider)
        /\ truthy (getWebhookSecret env provider) = true
        /\ getSignatureFromHeaders (headers req) provider = Ret signature
        /\ truthy signature = true
        /\ verifyWebhookSignature jwt_verify
             (js_or (rawBody req) (JSON_stringify (body req))) signature
             (getWebhookSecret env provider)
           = Ret true.
Proof.
  intros now o1 o2 env req st.
  unfold handleWebhook, eff_try, eff_bind, pure, eff_ret.
  destruct (determineProvider (headers req) (body req)) as [[provider|]|e];
    cbn [fst].
  2:{ split; [discriminate | intros (p & s & H & _); discriminate H]. }
  2:{ split; [discriminate | intros (p & s & H & _); discriminate H]. }
  destruct (truthy (getWebhookSecret env provider)) eqn:Tk; cbn [negb fst].
  2:{ split; [discriminate|].
      intros (p & s & H & Tk' & _). injection H as <-. congruence. }
  destruct (getSignatureFromHeaders (headers req) provider) as [signature|e]
    eqn:Hs; cbn [fst].
  2:{ split; [discriminate|].
      intros (p & s & H & _ & Hs' & _). injection H as <-. congruence. }
  destruct (truthy signature) eqn:Ts; cbn [negb fst].
  2:{ split; [discriminate|].
      intros (p & s & H & _ & Hs' & Ts' & _). injection H as <-. congruence. }
  destruct (verifyWebhookSignature jwt_verify _ signature _) as [[|]|e] eqn:Hv;
    cbn [negb fst].
  2:{ split; [discriminate|].
      intros (p & s & H & _ & Hs' & _ & Hv'). injection H as <-.
      rewrite Hs in Hs'. injection Hs' as <-. congruence. }
  2:{ split; [discriminate|].
      intros (p & s & H & _ & Hs' & _ & Hv'). injection H as <-.
      rewrite Hs in Hs'. injection Hs' as <-. congruence. }
  destruct (parse_canonical (body req) provider) as (kind & -> & Hkind).
  destruct (extract_returns millis_toISOString (body req) provider)
    as [details ->].
  rewrite (dispatch_canonical _ _ _ _ _ Hkind). unfold eff_ret. cbn [fst].
  split; [| reflexivity].
  intros _. exists provider, signature. auto.
Qed.

End WebhookRuns.

(** X30.  The header [x-apple-verification-id] decides for Apple before
    the body is looked at: whatever the body is, a missing one included,
    and whatever Google headers the request carries besides. *)
Theorem apple_header_decides_the_provider :
  forall headers body,
    truthy (js_get headers "x-apple-verification-id") = true ->
    determineProvider headers body = Ret (Some "apple").
Proof.
  intros headers body H.
  assert (nullish headers = false) as Hn
      by (destruct headers; try reflexivity; discriminate H).
  unfold determineProvider.
  rewrite (prop_ret _ "x-apple-verification-id" Hn). cbn [bind].
  rewrite H. reflexivity.
Qed.

Lemma apple_header_decides_the_provider_witness :
  determineProvider
    (JObj [ ("x-goog-signature", JStr "aaa.bbb.ccc");
            ("x-apple-verification-id", JStr "v-1") ])
    JUndef
  = Ret (Some "apple").
Proof.
  apply (apple_header_decides_the_provider
           (JObj [ ("x-goog-signature", JStr "aaa.bbb.ccc");
                   ("x-apple-verification-id", JStr "v-1") ])
           JUndef).
  reflexivity.
Defined.
